(** * MEDEA beam emulator

    A shallow embedding of [medea/BeamEmulator.py] (class [BeamEmulator]) and
    the properties of its construction and query paths.

    Conventions of the embedding.
    - A Python statement that may raise is a computation in an error monad;
      a method that also rebinds attributes of [self] threads the instance
      through a state-and-error monad that keeps the instance reached when
      the exception was raised.
    - Floating-point scalars are kept abstract (class [Scalar]); no property
      below depends on rounding.
    - scipy, scikit-learn and healpy are not part of the repository: the
      interpolation and regression routines are fields of the class
      [Environment]; [hp.nside2npix] is [12 * nside * nside]. What the
      spline does at the grid nodes is a hypothesis where it is needed
      ([reproduces_nodes]), with the tolerance as a relation on arrays.
    - The model covers a one-axis hyper-parameter grid and a coefficient
      array with three axes (grid node, frequency, coefficient).
    - The accessor [cryo_basis_beam_to_kl] (source lines 218-229) is not
      well-formed Python and is not called by any other method; it is left
      out. The [try] statement at lines 151-154 has no handler in the
      source; the handler is a field of [Environment]. *)

From Stdlib Require Import ZArith QArith.
From stdpp Require Import gmap strings list.

(** ** Exceptions and results *)

(** The exception classes a caller can observe. The first group is raised by
    the modelled statements; the second group is the error taxonomy of the
    specification, which no statement of the source raises. *)
Inductive exn : Set :=
  | AttributeError | KeyError | NameError | UnboundLocalError | ImportError
  | IndexError | ValueError | TypeError
  | ConfigurationError | DimensionMismatch | MissingDependency | ModelNotReady.

Inductive result (A : Type) : Type :=
  | Ok (a : A)
  | Raise (e : exn).
Arguments Ok {A} a.
Arguments Raise {A} e.

Definition rbind {A B} (r : result A) (k : A → result B) : result B :=
  match r with
  | Ok a => k a
  | Raise e => Raise e
  end.

Notation "x <~ r ;;; k" := (rbind r (fun x => k))
  (at level 20, r at level 100, k at level 200, right associativity).

Fixpoint rmapM {A B} (f : A → result B) (l : list A) : result (list B) :=
  match l with
  | [] => Ok []
  | x :: l' => y <~ f x ;;; ys <~ rmapM f l' ;;; Ok (y :: ys)
  end.

(** ** Scalars *)

Class Scalar := {
  R : Type;
  r0 : R;
  radd : R → R → R;
  rmul : R → R → R
}.

(** ** numpy arrays and the operations the emulator uses *)

Section Numpy.
Context `{Scalar}.

(** A two-axis array: its shape and its rows. *)
Record array2 := Array2 {
  shape0 : nat;
  shape1 : nat;
  rows : list (list R)
}.

(** A three-axis array: its shape and its entries in row-major order. *)
Record tensor3 := Tensor3 {
  dim0 : nat;
  dim1 : nat;
  dim2 : nat;
  flat : list R
}.

(** What [np.array] can hand back to the caller of a query. *)
Inductive ndarray :=
  | Array1d (v : list R)
  | Array2d (a : array2).

Definition array2_ok (a : array2) : bool :=
  bool_decide (length (rows a) = shape0 a)
  && forallb (fun r => bool_decide (length r = shape1 a)) (rows a).

Definition entry (a : array2) (i j : nat) : R :=
  nth j (nth i (rows a) []) r0.

(** [a.T] *)
Definition transpose (a : array2) : array2 :=
  {| shape0 := shape1 a;
     shape1 := shape0 a;
     rows := map (fun j => map (fun i => entry a i j) (seq 0 (shape0 a)))
                 (seq 0 (shape1 a)) |}.

(** Length of [x[:stop]] on an axis of length [n]. *)
Definition slice_stop (n : nat) (stop : option Z) : nat :=
  match stop with
  | None => n
  | Some k =>
      if (k <? 0)%Z then Z.to_nat (Z.max 0 (Z.of_nat n + k))
      else Z.to_nat (Z.min (Z.of_nat n) k)
  end.

(** [a[:, :stop]] *)
Definition slice_cols (a : array2) (stop : option Z) : array2 :=
  let c := slice_stop (shape1 a) stop in
  {| shape0 := shape0 a; shape1 := c; rows := map (take c) (rows a) |}.

Definition dot (u v : list R) : R :=
  fold_left radd (zip_with rmul u v) r0.

(** [np.matmul] of two two-axis arrays. *)
Definition matmul (a b : array2) : result array2 :=
  if decide (shape1 a = shape0 b) then
    Ok {| shape0 := shape0 a;
          shape1 := shape1 b;
          rows := map (fun r => map (dot r) (rows (transpose b))) (rows a) |}
  else Raise ValueError.

(** [np.matmul] of a two-axis array and a one-axis array. *)
Definition matmul_vec (a : array2) (v : list R) : result (list R) :=
  if decide (shape1 a = length v) then Ok (map (fun r => dot r v) (rows a))
  else Raise ValueError.

(** [np.zeros(n)] *)
Definition zeros (n : nat) : list R := replicate n r0.

(** [a[i, :]] for a non-negative [i]. *)
Definition getrow (a : array2) (i : nat) : result (list R) :=
  match rows a !! i with
  | Some r => Ok r
  | None => Raise IndexError
  end.

(** An index into an axis of length [n]: negative indices count from the
    end, anything outside [-n, n) is an [IndexError]. *)
Definition normalize_index (n : nat) (i : Z) : result nat :=
  if ((- Z.of_nat n <=? i) && (i <? Z.of_nat n))%Z then
    Ok (Z.to_nat (if (i <? 0)%Z then i + Z.of_nat n else i)%Z)
  else Raise IndexError.

(** Broadcasting of the assigned values to the shape of the index array. *)
Definition broadcast_to (n : nat) (vals : list R) : result (list R) :=
  if decide (length vals = n) then Ok vals
  else match vals with
       | [v] => Ok (replicate n v)
       | _ => Raise ValueError
       end.

Definition assign_all (a : list R) (pv : list (nat * R)) : list R :=
  fold_left (fun acc '(p, v) => <[p := v]> acc) pv a.

(** [a[idx] = vals] with an integer index array: the assignments are made in
    index order, so a repeated position keeps the value assigned last. *)
Definition setitem_fancy (a : list R) (idx : list Z) (vals : list R)
  : result (list R) :=
  vs <~ broadcast_to (length idx) vals ;;;
  ps <~ rmapM (normalize_index (length a)) idx ;;;
  Ok (assign_all a (zip ps vs)).

Fixpoint chunks (c n : nat) (l : list R) : list (list R) :=
  match n with
  | O => []
  | S n' => take c l :: chunks c n' (drop c l)
  end.

(** [np.reshape(x, (n, -1))] for an [x] with [size] entries [l]. *)
Definition reshape_rows (n size : nat) (l : list R) : result array2 :=
  if decide (n = 0) then Raise ValueError
  else if decide (size mod n = 0) then
    Ok {| shape0 := n; shape1 := size / n; rows := chunks (size / n) n l |}
  else Raise ValueError.

Definition tensor_size (t : tensor3) : nat := dim0 t * dim1 t * dim2 t.

Definition reshape_tensor (n : nat) (t : tensor3) : result array2 :=
  reshape_rows n (tensor_size t) (flat t).

Definition reshape_array (n : nat) (a : array2) : result array2 :=
  reshape_rows n (shape0 a * shape1 a) (concat (rows a)).

(** [y[i]] on a three-axis array, for [i] below its first dimension: the
    coefficients stored for grid node [i], one row per frequency. *)
Definition node_slice (y : tensor3) (i : nat) : array2 :=
  {| shape0 := dim1 y;
     shape1 := dim2 y;
     rows := chunks (dim2 y) (dim1 y) (drop (i * (dim1 y * dim2 y)) (flat y)) |}.

(** [x.reshape(-1, 1)] of a one-axis array. *)
Definition column (l : list R) : array2 :=
  {| shape0 := length l; shape1 := 1; rows := map (fun x => [x]) l |}.

(** [np.array] of a list of equally long one-axis arrays. *)
Definition stack (l : list (list R)) : ndarray :=
  match l with
  | [] => Array1d []
  | r :: _ => Array2d {| shape0 := length l; shape1 := length r; rows := l |}
  end.

End Numpy.

(** Integer index arrays hold 64-bit signed integers. *)
Definition int64_wrap (z : Z) : Z :=
  ((z + 2 ^ 63) mod 2 ^ 64 - 2 ^ 63)%Z.

Definition int64_range (z : Z) : Prop :=
  (- 2 ^ 63 <= z < 2 ^ 63)%Z.

(** [idx - 1] on an integer array. *)
Definition minus_one (idx : list Z) : list Z :=
  map (fun i => int64_wrap (i - 1)) idx.

(** [hp.nside2npix] *)
Definition nside2npix (nside : Z) : Z := (12 * nside * nside)%Z.

(** ** The external libraries *)

(** Values stored in the [gpr_kwargs] dictionary. *)
Inductive pyval :=
  | PyStr (s : string)
  | PyBool (b : bool).

(** [v == 'name'] *)
Definition py_eq (v : pyval) (name : string) : bool :=
  match v with
  | PyStr s => bool_decide (s = name)
  | PyBool _ => false
  end.

(** Kernel expressions of [sklearn.gaussian_process.kernels]; [Scaled c k]
    is the product [c * k]. *)
Inductive kernel :=
  | RBF (length_scale : Q)
  | Matern (length_scale nu : Q)
  | RationalQuadratic (length_scale alpha : Q)
  | Scaled (c : Q) (k : kernel).

(** The keyword arguments given to [GaussianProcessRegressor]. *)
Record estimator_spec := GaussianProcessRegressor {
  est_kernel : kernel;
  n_restarts_optimizer : Z;
  normalize_y : pyval
}.

Inductive regressor_kind :=
  | MultiOutputRegressor (n_jobs : Z)
  | RegressorChain.

(** The fitted objects, by the operations the emulator applies to them. *)
Record BSpline `{Scalar} := {
  spline_at : R → result array2;
  spline_at_nodes : list R → result tensor3
}.

Record Regressor `{Scalar} (params : Type) := {
  estimators_ : list (params * R);
  score : array2 → array2 → result R;
  predict : array2 → result array2
}.
Arguments estimators_ {_ _} _.
Arguments score {_ _} _ _ _.
Arguments predict {_ _} _ _.

(** What the module finds around it when it is imported and run.
    [sklearn_installed] decides whether the guarded import at the top of the
    module binds the six scikit-learn names. [score_handler] stands for the
    handler that the [try] statement of the spline branch lacks in the
    source. *)
Class Environment `{Scalar} := {
  sklearn_installed : bool;
  kernel_params : Type;
  make_interp_spline : list R → tensor3 → Z → result BSpline;
  fit_regressor :
    regressor_kind → estimator_spec → array2 → array2 →
    result (Regressor kernel_params);
  r2_score : array2 → array2 → result R;
  score_handler : exn → result unit
}.

(** ** The emulator *)

Section Emulator.
Context `{Environment}.

Inductive interpolater :=
  | Spline (s : BSpline)
  | Regr (r : Regressor kernel_params).

(** Attributes bound by [__init__]. [hyper_parameter_array] and
    [interpolation_order] are properties backed by the underscored
    attributes. *)
Record attributes := {
  frequencies : list R;
  nside : Z;
  cryobasis : array2;
  cryo_coefficients : tensor3;
  _hyper_parameter_array : option (list R);
  unmasked_indices : list Z;
  _interpolation_order : option Z;
  use_gpr : bool;
  coefficient_order : option Z;
  gpr_kwargs : gmap string pyval;
  return_beam_above_horizon : bool;
  unmasked_indices_in_julia_ordering : bool
}.

(** Attributes that [__init__] leaves unbound ([None]). All but [cryo_basis]
    are bound by a property setter or by the first read of a property;
    [cryo_basis] is read by [cryo_basis_kl_to_beam] and bound by no statement
    of the class. *)
Record derived := {
  cryo_basis : option array2;
  _hyper_parameter_interpolater : option interpolater;
  _cryo_basis_kl_to_beam : option array2;
  _estimator_hyper_parameters : option (list kernel_params);
  _estimator_log_marginal_likelihoods : option (list R);
  _gpr_score_of_training_set : option R;
  _spline_score_of_training_set : option R
}.

Record BeamEmulator := {
  attrs : attributes;
  late : derived
}.

Definition unbound : derived :=
  {| cryo_basis := None;
     _hyper_parameter_interpolater := None;
     _cryo_basis_kl_to_beam := None;
     _estimator_hyper_parameters := None;
     _estimator_log_marginal_likelihoods := None;
     _gpr_score_of_training_set := None;
     _spline_score_of_training_set := None |}.

(** [BeamEmulator.__init__]; the arguments are in the order of the source.
    The source gives defaults to the last six:
    [interpolation_order=3], [use_gpr=False], [coefficient_order=None],
    [gpr_kwargs={}], [return_beam_above_horizon=False],
    [unmasked_indices_in_julia_ordering=True]. *)
Definition __init__
    (frequencies : list R) (nside : Z) (cryobasis : array2)
    (cryo_coefficients : tensor3) (hyper_parameter_array : list R)
    (unmasked_indices : list Z) (interpolation_order : Z) (use_gpr : bool)
    (coefficient_order : option Z) (gpr_kwargs : gmap string pyval)
    (return_beam_above_horizon : bool)
    (unmasked_indices_in_julia_ordering : bool) : result BeamEmulator :=
  Ok {| attrs :=
          {| frequencies := frequencies;
             nside := nside;
             cryobasis := cryobasis;
             cryo_coefficients := cryo_coefficients;
             _hyper_parameter_array := Some hyper_parameter_array;
             unmasked_indices :=
               if unmasked_indices_in_julia_ordering
               then minus_one unmasked_indices
               else unmasked_indices;
             _interpolation_order := Some interpolation_order;
             use_gpr := use_gpr;
             coefficient_order := coefficient_order;
             gpr_kwargs := gpr_kwargs;
             return_beam_above_horizon := return_beam_above_horizon;
             unmasked_indices_in_julia_ordering :=
               unmasked_indices_in_julia_ordering |};
        late := unbound |}.

(** *** Methods: computations on the instance *)

Definition M (A : Type) : Type := BeamEmulator → result A * BeamEmulator.

Definition ret {A} (a : A) : M A := fun self => (Ok a, self).

Definition bind {A B} (m : M A) (k : A → M B) : M B :=
  fun self =>
    match m self with
    | (Ok a, self') => k a self'
    | (Raise e, self') => (Raise e, self')
    end.

Definition lift {A} (r : result A) : M A := fun self => (r, self).

Definition attr {A} (f : attributes → A) : M A :=
  fun self => (Ok (f (attrs self)), self).

Definition bound_attr {A} (f : BeamEmulator → option A) : M A :=
  fun self =>
    match f self with
    | Some v => (Ok v, self)
    | None => (Raise AttributeError, self)
    end.

Definition set_late (f : derived → derived) : M unit :=
  fun self => (Ok tt, {| attrs := attrs self; late := f (late self) |}).

End Emulator.

Notation "x <- m ;;; k" := (bind m (fun x => k))
  (at level 20, m at level 100, k at level 200, right associativity).

Section Methods.
Context `{Environment}.

(** Property setters. *)
Definition set_hyper_parameter_interpolater (value : interpolater) : M unit :=
  set_late (fun d =>
    {| cryo_basis := cryo_basis d;
       _hyper_parameter_interpolater := Some value;
       _cryo_basis_kl_to_beam := _cryo_basis_kl_to_beam d;
       _estimator_hyper_parameters := _estimator_hyper_parameters d;
       _estimator_log_marginal_likelihoods :=
         _estimator_log_marginal_likelihoods d;
       _gpr_score_of_training_set := _gpr_score_of_training_set d;
       _spline_score_of_training_set := _spline_score_of_training_set d |}).

Definition set_cryo_basis_kl_to_beam (value : array2) : M unit :=
  set_late (fun d =>
    {| cryo_basis := cryo_basis d;
       _hyper_parameter_interpolater := _hyper_parameter_interpolater d;
       _cryo_basis_kl_to_beam := Some value;
       _estimator_hyper_parameters := _estimator_hyper_parameters d;
       _estimator_log_marginal_likelihoods :=
         _estimator_log_marginal_likelihoods d;
       _gpr_score_of_training_set := _gpr_score_of_training_set d;
       _spline_score_of_training_set := _spline_score_of_training_set d |}).

Definition set_estimator_hyper_parameters (value : list kernel_params)
  : M unit :=
  set_late (fun d =>
    {| cryo_basis := cryo_basis d;
       _hyper_parameter_interpolater := _hyper_parameter_interpolater d;
       _cryo_basis_kl_to_beam := _cryo_basis_kl_to_beam d;
       _estimator_hyper_parameters := Some value;
       _estimator_log_marginal_likelihoods :=
         _estimator_log_marginal_likelihoods d;
       _gpr_score_of_training_set := _gpr_score_of_training_set d;
       _spline_score_of_training_set := _spline_score_of_training_set d |}).

Definition set_estimator_log_marginal_likelihoods (value : list R)
  : M unit :=
  set_late (fun d =>
    {| cryo_basis := cryo_basis d;
       _hyper_parameter_interpolater := _hyper_parameter_interpolater d;
       _cryo_basis_kl_to_beam := _cryo_basis_kl_to_beam d;
       _estimator_hyper_parameters := _estimator_hyper_parameters d;
       _estimator_log_marginal_likelihoods := Some value;
       _gpr_score_of_training_set := _gpr_score_of_training_set d;
       _spline_score_of_training_set := _spline_score_of_training_set d |}).

Definition set_gpr_score_of_training_set (value : R) : M unit :=
  set_late (fun d =>
    {| cryo_basis := cryo_basis d;
       _hyper_parameter_interpolater := _hyper_parameter_interpolater d;
       _cryo_basis_kl_to_beam := _cryo_basis_kl_to_beam d;
       _estimator_hyper_parameters := _estimator_hyper_parameters d;
       _estimator_log_marginal_likelihoods :=
         _estimator_log_marginal_likelihoods d;
       _gpr_score_of_training_set := Some value;
       _spline_score_of_training_set := _spline_score_of_training_set d |}).

Definition set_spline_score_of_training_set (value : R) : M unit :=
  set_late (fun d =>
    {| cryo_basis := cryo_basis d;
       _hyper_parameter_interpolater := _hyper_parameter_interpolater d;
       _cryo_basis_kl_to_beam := _cryo_basis_kl_to_beam d;
       _estimator_hyper_parameters := _estimator_hyper_parameters d;
       _estimator_log_marginal_likelihoods :=
         _estimator_log_marginal_likelihoods d;
       _gpr_score_of_training_set := _gpr_score_of_training_set d;
       _spline_score_of_training_set := Some value |}).

(** Property getters that only read. *)
Definition hyper_parameter_array : M (list R) :=
  bound_attr (fun self => _hyper_parameter_array (attrs self)).

Definition interpolation_order : M Z :=
  bound_attr (fun self => _interpolation_order (attrs self)).

Definition estimator_hyper_parameters : M (list kernel_params) :=
  bound_attr (fun self => _estimator_hyper_parameters (late self)).

Definition estimator_log_marginal_likelihoods : M (list R) :=
  bound_attr (fun self => _estimator_log_marginal_likelihoods (late self)).

Definition gpr_score_of_training_set : M R :=
  bound_attr (fun self => _gpr_score_of_training_set (late self)).

Definition spline_score_of_training_set : M R :=
  bound_attr (fun self => _spline_score_of_training_set (late self)).

(** [d[key]] on the keyword dictionary. *)
Definition getitem (d : gmap string pyval) (key : string) : result pyval :=
  match d !! key with
  | Some v => Ok v
  | None => Raise KeyError
  end.

(** Reading one of the names bound by the guarded import. *)
Definition sklearn_name : result unit :=
  if sklearn_installed then Ok tt else Raise NameError.

(** A local variable that is bound on some branches only. *)
Definition local {A} (v : option A) : result A :=
  match v with
  | Some a => Ok a
  | None => Raise UnboundLocalError
  end.

(** Lines 107-114: the chain of comparisons that binds [kernel]. *)
Definition select_kernel (desired_kernel : pyval) : result (option kernel) :=
  if py_eq desired_kernel "RBF" then
    _ <~ sklearn_name ;;; Ok (Some (Scaled 1 (RBF 1)))
  else if py_eq desired_kernel "Matern_2_5" then
    _ <~ sklearn_name ;;; Ok (Some (Scaled 1 (Matern 1 (5 # 2))))
  else if py_eq desired_kernel "Matern_1_5" then
    _ <~ sklearn_name ;;; Ok (Some (Scaled 1 (Matern 1 (3 # 2))))
  else if py_eq desired_kernel "RQ" then
    _ <~ sklearn_name ;;; Ok (Some (Scaled 1 (RationalQuadratic 1 (3 # 2))))
  else Ok None.

(** Lines 119-126: the chain of comparisons that binds [regr]. *)
Definition select_regressor (estimator : estimator_spec)
    (reshaped_coeff : array2) : M (option (Regressor kernel_params)) :=
  regressor <- attr (fun a => getitem (gpr_kwargs a) "regressor") ;;;
  regressor <- lift regressor ;;;
  if py_eq regressor "MultiOutput" then
    _ <- lift sklearn_name ;;;
    x <- hyper_parameter_array ;;;
    regr <- lift (fit_regressor (MultiOutputRegressor (-1)) estimator
                    (column x) reshaped_coeff) ;;;
    ret (Some regr)
  else if py_eq regressor "RegressorChain" then
    _ <- lift sklearn_name ;;;
    x <- hyper_parameter_array ;;;
    regr <- lift (fit_regressor RegressorChain estimator
                    (column x) reshaped_coeff) ;;;
    ret (Some regr)
  else ret None.

(** Lines 105-141: the Gaussian-process branch of the fit. *)
Definition fit_gpr (reshaped_coeff : array2) : M unit :=
  desired_kernel <- attr (fun a => getitem (gpr_kwargs a) "kernel") ;;;
  desired_kernel <- lift desired_kernel ;;;
  kernel <- lift (select_kernel desired_kernel) ;;;
  _ <- lift sklearn_name ;;;
  kernel <- lift (local kernel) ;;;
  normalize <- attr (fun a => getitem (gpr_kwargs a) "normalize_y") ;;;
  normalize <- lift normalize ;;;
  regr <- select_regressor (GaussianProcessRegressor kernel 20 normalize)
            reshaped_coeff ;;;
  regr <- lift (local regr) ;;;
  _ <- set_estimator_log_marginal_likelihoods (map snd (estimators_ regr)) ;;;
  _ <- set_estimator_hyper_parameters (map fst (estimators_ regr)) ;;;
  x <- hyper_parameter_array ;;;
  s <- lift (score regr (column x) reshaped_coeff) ;;;
  _ <- set_gpr_score_of_training_set s ;;;
  set_hyper_parameter_interpolater (Regr regr).

(** Lines 151-154: the body of the [try] statement, and the statement with
    the handler supplied by the environment. *)
Definition score_spline (reshaped_coeff predicted_outputs : array2)
  : M unit :=
  _ <- lift (if sklearn_installed then Ok tt else Raise ImportError) ;;;
  s <- lift (r2_score reshaped_coeff predicted_outputs) ;;;
  set_spline_score_of_training_set s.

Definition try_score_spline (reshaped_coeff predicted_outputs : array2)
  : M unit :=
  fun self =>
    match score_spline reshaped_coeff predicted_outputs self with
    | (Ok tt, self') => (Ok tt, self')
    | (Raise e, self') => (score_handler e, self')
    end.

(** Lines 144-154: the spline branch of the fit. *)
Definition fit_spline (reshaped_coeff : array2) : M unit :=
  x <- hyper_parameter_array ;;;
  y <- attr cryo_coefficients ;;;
  k <- interpolation_order ;;;
  s <- lift (make_interp_spline x y k) ;;;
  _ <- set_hyper_parameter_interpolater (Spline s) ;;;
  itp <- bound_attr (fun self => _hyper_parameter_interpolater (late self)) ;;;
  x <- hyper_parameter_array ;;;
  predicted_outputs <-
    lift (match itp with
          | Spline s => spline_at_nodes s x
          | Regr _ => Raise TypeError
          end) ;;;
  x <- hyper_parameter_array ;;;
  predicted_outputs <- lift (reshape_tensor (length x) predicted_outputs) ;;;
  try_score_spline reshaped_coeff predicted_outputs.

(** Lines 102-155: the body of the property when nothing is fitted yet. *)
Definition fit_interpolater : M interpolater :=
  y <- attr cryo_coefficients ;;;
  x <- hyper_parameter_array ;;;
  reshaped_coeff <- lift (reshape_tensor (length x) y) ;;;
  gpr <- attr use_gpr ;;;
  _ <- (if gpr then fit_gpr reshaped_coeff else fit_spline reshaped_coeff) ;;;
  bound_attr (fun self => _hyper_parameter_interpolater (late self)).

(** The property [hyper_parameter_interpolater]: fitted on the first read,
    read back from the instance afterwards. *)
Definition hyper_parameter_interpolater : M interpolater :=
  fun self =>
    match _hyper_parameter_interpolater (late self) with
    | Some _ =>
        bound_attr (fun self => _hyper_parameter_interpolater (late self)) self
    | None => fit_interpolater self
    end.

(** [parameter[0]] *)
Definition first (parameter : list R) : result R :=
  match parameter with
  | p :: _ => Ok p
  | [] => Raise IndexError
  end.

(** Lines 210-212: the body of the property when no projector is on the
    instance yet. *)
Definition compute_cryo_basis_kl_to_beam : M array2 :=
  b <- bound_attr (fun self => cryo_basis (late self)) ;;;
  _ <- set_cryo_basis_kl_to_beam (transpose b) ;;;
  t <- bound_attr (fun self => _cryo_basis_kl_to_beam (late self)) ;;;
  k <- attr coefficient_order ;;;
  _ <- set_cryo_basis_kl_to_beam (slice_cols t k) ;;;
  bound_attr (fun self => _cryo_basis_kl_to_beam (late self)).

(** The property [cryo_basis_kl_to_beam]: the projector from coefficients to
    pixels, computed on the first read from the attribute [cryo_basis]. *)
Definition cryo_basis_kl_to_beam : M array2 :=
  fun self =>
    match _cryo_basis_kl_to_beam (late self) with
    | Some _ => bound_attr (fun self => _cryo_basis_kl_to_beam (late self)) self
    | None => compute_cryo_basis_kl_to_beam self
    end.

(** Lines 252-258 of [__call__]: the coefficients predicted at the query
    point. *)
Definition interp_coeff (parameter : list R) : M array2 :=
  gpr <- attr use_gpr ;;;
  if gpr then
    itp <- hyper_parameter_interpolater ;;;
    match itp with
    | Regr r =>
        p <- lift (first parameter) ;;;
        c <- lift (predict r {| shape0 := 1; shape1 := 1; rows := [[p]] |}) ;;;
        f <- attr frequencies ;;;
        lift (reshape_array (length f) c)
    | Spline _ => lift (Raise AttributeError)
    end
  else
    itp <- hyper_parameter_interpolater ;;;
    p <- lift (first parameter) ;;;
    match itp with
    | Spline s => lift (spline_at s p)
    | Regr _ => lift (Raise TypeError)
    end.

(** Lines 265-270: the loop over the frequencies, from position [ifreq]. *)
Fixpoint full_sky (freqs : list R) (ifreq : nat) (coeff : array2)
  : M (list (list R)) :=
  match freqs with
  | [] => ret []
  | _ :: freqs' =>
      n <- attr nside ;;;
      let beam_map := zeros (Z.to_nat (nside2npix n)) in
      basis <- cryo_basis_kl_to_beam ;;;
      row <- lift (getrow coeff ifreq) ;;;
      funks <- lift (matmul_vec basis row) ;;;
      idx <- attr unmasked_indices ;;;
      beam_map <- lift (setitem_fancy beam_map idx funks) ;;;
      rest <- full_sky freqs' (S ifreq) coeff ;;;
      ret (beam_map :: rest)
  end.

(** [BeamEmulator.__call__] *)
Definition __call__ (parameter : list R) : M ndarray :=
  coeff <- interp_coeff parameter ;;;
  horizon <- attr return_beam_above_horizon ;;;
  if horizon then
    basis <- cryo_basis_kl_to_beam ;;;
    funks <- lift (matmul basis (transpose coeff)) ;;;
    ret (Array2d funks)
  else
    freqs <- attr frequencies ;;;
    cryo_beam_list <- full_sky freqs 0 coeff ;;;
    ret (stack cryo_beam_list).

End Methods.

(** Plain attribute assignment [self.coefficient_order = k]. *)
Definition set_coefficient_order `{Environment} (k : option Z)
    (self : BeamEmulator) : BeamEmulator :=
  {| attrs :=
       {| frequencies := frequencies (attrs self);
          nside := nside (attrs self);
          cryobasis := cryobasis (attrs self);
          cryo_coefficients := cryo_coefficients (attrs self);
          _hyper_parameter_array := _hyper_parameter_array (attrs self);
          unmasked_indices := unmasked_indices (attrs self);
          _interpolation_order := _interpolation_order (attrs self);
          use_gpr := use_gpr (attrs self);
          coefficient_order := k;
          gpr_kwargs := gpr_kwargs (attrs self);
          return_beam_above_horizon := return_beam_above_horizon (attrs self);
          unmasked_indices_in_julia_ordering :=
            unmasked_indices_in_julia_ordering (attrs self) |};
     late := late self |}.

(** A method keeps the attributes bound by [__init__] and the two
    attributes behind the projector. *)
Definition keeps `{Environment} {A} (m : M A) : Prop :=
  ∀ self,
    attrs (m self).2 = attrs self
    ∧ cryo_basis (late (m self).2) = cryo_basis (late self)
    ∧ _cryo_basis_kl_to_beam (late (m self).2)
      = _cryo_basis_kl_to_beam (late self).

(** [L] is the number of coefficient columns of the projector that the
    instance would compute from [cryo_basis], if that attribute is bound. *)
Definition full_width `{Environment} (L : Z) (self : BeamEmulator) : Prop :=
  ∀ b, cryo_basis (late self) = Some b → L = Z.of_nat (shape0 b).

(** A method gives the same result on an instance with
    [coefficient_order = L] and on the same instance with
    [coefficient_order = None], and leaves the two instances equal up to
    that attribute. *)
Definition agree `{Environment} (L : Z) {A} (m : M A) : Prop :=
  ∀ self,
    full_width L self →
    ∃ r self',
      m (set_coefficient_order (Some L) self)
      = (r, set_coefficient_order (Some L) self')
      ∧ m (set_coefficient_order None self)
        = (r, set_coefficient_order None self')
      ∧ cryo_basis (late self') = cryo_basis (late self).

(** The values that a full-sky query assigns for one frequency, and the
    position that an index addresses in a map of [npix] pixels. *)
Definition project `{Scalar} (basis : array2) (row : list R) : list R :=
  map (fun r => dot r row) (rows basis).

Definition position (npix : nat) (i : Z) : nat :=
  Z.to_nat (i mod Z.of_nat npix).

(** An index that [beam_map[idx] = funks] accepts on a map of [npix]
    pixels. *)
Definition addressable (npix : nat) (i : Z) : Prop :=
  (- Z.of_nat npix <= i < Z.of_nat npix)%Z.

(** The map that lines 266-269 build for one frequency when every index is
    addressable and there is one value per index. *)
Definition scatter `{Scalar} (npix : nat) (idx : list Z) (vals : list R)
  : list R :=
  assign_all (zeros npix) (zip (map (position npix) idx) vals).

(** ** Statements of the specification, as predicates on the model *)

(** The array handed back has two axes, of lengths [n] and [m]. *)
Definition returns_shape `{Scalar} (r : result ndarray) (n m : nat) : Prop :=
  ∃ a, r = Ok (Array2d a) ∧ shape0 a = n ∧ shape1 a = m.

(** The shape conditions that section 4.3 of the specification lists for
    construction: the mask is as long as the pixel axis of the basis, the
    leading axis of the coefficients is as long as the grid, and their
    frequency axis is as long as the frequency grid. *)
Definition spec_shapes_consistent `{Scalar} (frequencies : list R)
    (cryobasis : array2) (cryo_coefficients : tensor3)
    (hyper_parameter_array : list R) (unmasked_indices : list Z) : bool :=
  bool_decide (length unmasked_indices = shape0 cryobasis)
  && bool_decide (dim0 cryo_coefficients = length hyper_parameter_array)
  && bool_decide (dim1 cryo_coefficients = length frequencies).

(** The kernel and regressor names the docstring of [__init__] enumerates. *)
Definition kernel_names : list string :=
  ["RBF"; "Matern_2_5"; "Matern_1_5"; "RQ"].

Definition regressor_names : list string :=
  ["MultiOutput"; "RegressorChain"].

Definition named (names : list string) (v : pyval) : bool :=
  match v with
  | PyStr s => bool_decide (s ∈ names)
  | PyBool _ => false
  end.

(** ** The remaining methods, and what is observed across several calls *)

(** What [coefficient_predicter] hands back: the regressor answers with a
    two-axis array, the spline evaluated at an array of points with a
    three-axis one. *)
Inductive prediction `{Scalar} :=
  | Predicted2 (a : array2)
  | Predicted3 (t : tensor3).

(** [BeamEmulator.coefficient_predicter], lines 157-161, for [inputs] a
    two-axis array (the form [predict] takes); in spline mode [inputs[0]] is
    its first row, an array of points. The method reads the underscored
    attribute, not the property. *)
Definition coefficient_predicter `{Environment} (inputs : array2)
  : M prediction :=
  gpr <- attr use_gpr ;;;
  itp <- bound_attr (fun self => _hyper_parameter_interpolater (late self)) ;;;
  if gpr then
    match itp with
    | Regr r => c <- lift (predict r inputs) ;;; ret (Predicted2 c)
    | Spline _ => lift (Raise AttributeError)
    end
  else
    points <- lift (getrow inputs 0) ;;;
    match itp with
    | Spline s => t <- lift (spline_at_nodes s points) ;;; ret (Predicted3 t)
    | Regr _ => lift (Raise TypeError)
    end.

(** A method leaves [proj] of the instance as it found it, whether it
    returns or raises. *)
Definition frame `{Environment} {A X} (proj : BeamEmulator → X) (m : M A)
  : Prop :=
  ∀ self, proj (m self).2 = proj self.

(** A method keeps the instance in [P]. *)
Definition preserves `{Environment} {A} (P : BeamEmulator → Prop) (m : M A)
  : Prop :=
  ∀ self, P self → P (m self).2.

(** Neither the projector nor the attribute it is computed from is on the
    instance. *)
Definition projectorless `{Environment} (self : BeamEmulator) : Prop :=
  cryo_basis (late self) = None ∧ _cryo_basis_kl_to_beam (late self) = None.

(** The instance after the queries [ps], made one after the other, whatever
    each of them returned or raised. *)
Definition after_queries `{Environment} (ps : list (list R))
    (self : BeamEmulator) : BeamEmulator :=
  fold_left (fun s p => (__call__ p s).2) ps self.

(** The transposed basis restricted to its first [n] coefficient columns. *)
Definition first_columns `{Scalar} (b : array2) (n : nat) : array2 :=
  {| shape0 := shape1 b;
     shape1 := n;
     rows := map (fun i => map (fun j => entry b j i) (seq 0 n))
               (seq 0 (shape1 b)) |}.

(** ** The interpolation routine *)

(** Modelled from the spec: the interpolation property of
    [scipy.interpolate.make_interp_spline], a routine of an external library
    whose code is not under the sources of the repository. The interpolant
    [s] built from the nodes [x] and the values [y] reproduces, at every
    node, the slice of [y] stored for that node; [close] is the tolerance
    within which two arrays count as the same (equality for an interpolant
    that is exact). *)
Definition reproduces_nodes `{Scalar} (close : array2 → array2 → Prop)
    (s : BSpline) (x : list R) (y : tensor3) : Prop :=
  ∀ i h, x !! i = Some h →
    ∃ v, spline_at s h = Ok v ∧ close v (node_slice y i).

(** ** A concrete environment, to run the model *)

(** Integer scalars. *)
Definition Zscalar : Scalar :=
  {| R := Z; r0 := 0%Z; radd := Z.add; rmul := Z.mul |}.

Section Demo.
#[local] Existing Instance Zscalar.

(** Position of the last grid node that is not above [p] (the first node
    when there is none). *)
Definition node_below (x : list Z) (p : Z) : nat :=
  pred (length (filter (fun v => (v <= p)%Z) x)).

(** A piecewise-constant interpolant through the grid nodes: it stands for
    [scipy.interpolate.make_interp_spline] when the model is run. *)
Definition step_spline (x : list Z) (y : tensor3) (k : Z)
  : result BSpline :=
  if bool_decide (length x = dim0 y) && (k <? Z.of_nat (length x))%Z then
    Ok {| spline_at := fun p => Ok (node_slice y (node_below x p));
          spline_at_nodes := fun ps =>
            Ok {| dim0 := length ps;
                  dim1 := dim1 y;
                  dim2 := dim2 y;
                  flat :=
                    concat (map (fun p =>
                      concat (rows (node_slice y (node_below x p)))) ps) |} |}
  else Raise ValueError.

(** A regressor that answers every query with the first training sample:
    it stands for the fitted scikit-learn regressors. Like them it holds one
    estimator per output column; the parameters of an estimator are the
    number of its column here, and its log marginal likelihood is the
    negated number. *)
Definition first_sample (kind : regressor_kind) (e : estimator_spec)
    (x y : array2) : result (Regressor nat) :=
  Ok {| estimators_ :=
          map (fun j => (j, (- Z.of_nat j)%Z)) (seq 0 (shape1 y));
        score := fun _ _ => Ok 1%Z;
        predict := fun _ =>
          Ok {| shape0 := 1; shape1 := shape1 y; rows := take 1 (rows y) |} |}.

Definition demo_env (installed : bool) : Environment :=
  {| sklearn_installed := installed;
     kernel_params := nat;
     make_interp_spline := step_spline;
     fit_regressor := first_sample;
     r2_score := fun _ _ => Ok 1%Z;
     score_handler := fun _ => Ok tt |}.

(** The demo environment without scikit-learn, with a handler that lets the
    exception of the score diagnostic through. *)
Definition strict_env : Environment :=
  {| sklearn_installed := false;
     kernel_params := nat;
     make_interp_spline := step_spline;
     fit_regressor := first_sample;
     r2_score := fun _ _ => Ok 1%Z;
     score_handler := fun e => Raise e |}.

(** Two frequencies, three grid nodes, three coefficients, three pixels above
    the horizon of a twelve-pixel sky. *)
Definition demo_frequencies : list Z := [50; 51]%Z.
Definition demo_grid : list Z := [1; 2; 3]%Z.

Definition demo_coefficients : tensor3 :=
  {| dim0 := 3; dim1 := 2; dim2 := 3;
     flat := [1; 0; 0;  0; 1; 0;
              2; 1; 0;  0; 2; 1;
              3; 0; 1;  1; 0; 3]%Z |}.

Definition demo_basis : array2 :=
  {| shape0 := 3; shape1 := 3;
     rows := [[1; 0; 0]; [1; 1; 0]; [1; 1; 1]]%Z |}.

Definition demo_projector : array2 :=
  {| shape0 := 3; shape1 := 3;
     rows := [[1; 1; 1]; [0; 1; 1]; [0; 0; 1]]%Z |}.

(** The keyword dictionary of a complete Gaussian-process configuration. *)
Definition demo_kwargs (kernel regressor : string) : gmap string pyval :=
  {[ "kernel" := PyStr kernel;
     "normalize_y" := PyBool true;
     "regressor" := PyStr regressor ]}.

(** [BeamEmulator(...)] on the demo inputs, in the given environment. *)
Definition demo_emulator (installed : bool) (mask : list Z) (use_gpr : bool)
    (order : option Z) (kwargs : gmap string pyval) (horizon julia : bool)
  : result (@BeamEmulator _ (demo_env installed)) :=
  @__init__ _ (demo_env installed) demo_frequencies 1 demo_basis
    demo_coefficients demo_grid mask 1 use_gpr order kwargs horizon julia.

(** The derived attributes of an instance on which a caller has bound
    [cryo_basis] to the demo basis. *)
Definition demo_late_basis : @derived _ (demo_env true) :=
  {| cryo_basis := Some demo_basis;
     _hyper_parameter_interpolater := None;
     _cryo_basis_kl_to_beam := None;
     _estimator_hyper_parameters := None;
     _estimator_log_marginal_likelihoods := None;
     _gpr_score_of_training_set := None;
     _spline_score_of_training_set := None |}.

(** An interpolation routine whose spline cannot be evaluated at an array
    of points. *)
Definition brittle_spline (x : list Z) (y : tensor3) (k : Z)
  : result BSpline :=
  Ok {| spline_at := fun p => Ok (node_slice y (node_below x p));
        spline_at_nodes := fun _ => Raise ValueError |}.

Definition brittle_env : Environment :=
  {| sklearn_installed := true;
     kernel_params := nat;
     make_interp_spline := brittle_spline;
     fit_regressor := first_sample;
     r2_score := fun _ _ => Ok 1%Z;
     score_handler := fun _ => Ok tt |}.

(** The instance that [__init__] returns in environment [E] for the demo
    grid, basis and [nside = 1], with the pixel indices as they are stored
    (one-based flag set, spline order 1). *)
Definition demo_instance (E : Environment) (freqs : list Z)
    (coefficients : tensor3) (stored : list Z) (gpr : bool)
    (order : option Z) (kwargs : gmap string pyval) (horizon : bool)
  : @BeamEmulator _ E :=
  {| attrs :=
       {| frequencies := freqs;
          nside := 1%Z;
          cryobasis := demo_basis;
          cryo_coefficients := coefficients;
          _hyper_parameter_array := Some demo_grid;
          unmasked_indices := stored;
          _interpolation_order := Some 1%Z;
          use_gpr := gpr;
          coefficient_order := order;
          gpr_kwargs := kwargs;
          return_beam_above_horizon := horizon;
          unmasked_indices_in_julia_ordering := true |};
     late := unbound |}.

(** The same instance after [self.cryo_basis_kl_to_beam = demo_projector]. *)
Definition demo_projecting (E : Environment) (freqs : list Z)
    (coefficients : tensor3) (stored : list Z) (gpr : bool)
    (order : option Z) (kwargs : gmap string pyval) (horizon : bool)
  : @BeamEmulator _ E :=
  (set_cryo_basis_kl_to_beam demo_projector
     (demo_instance E freqs coefficients stored gpr order kwargs horizon)).2.

(** The same instance after a caller's [self.cryo_basis = demo_basis]. *)
Definition demo_based (order : option Z) (horizon : bool)
  : @BeamEmulator _ (demo_env true) :=
  {| attrs :=
       attrs (demo_instance (demo_env true) demo_frequencies
                demo_coefficients [0; 4; 9]%Z false order ∅ horizon);
     late := demo_late_basis |}.

(** Coefficients with seventeen entries, which three grid nodes do not
    divide. *)
Definition ragged_coefficients : tensor3 :=
  {| dim0 := 1; dim1 := 1; dim2 := 17; flat := replicate 17 0%Z |}.

(** Coefficients for no frequency at all. *)
Definition empty_coefficients : tensor3 :=
  {| dim0 := 3; dim1 := 0; dim2 := 3; flat := [] |}.

(** The demo emulator in spline mode, and in Gaussian-process mode. *)
Definition demo_spline (horizon : bool) : @BeamEmulator _ (demo_env true) :=
  demo_instance (demo_env true) demo_frequencies demo_coefficients
    [0; 4; 9]%Z false None ∅ horizon.

Definition demo_gpr (kwargs : gmap string pyval)
  : @BeamEmulator _ (demo_env true) :=
  demo_instance (demo_env true) demo_frequencies demo_coefficients
    [0; 4; 9]%Z true None kwargs false.

(** The one-by-one array [[p]]. *)
Definition one_by_one (p : Z) : array2 :=
  {| shape0 := 1; shape1 := 1; rows := [[p]] |}.

End Demo.

(** * Properties *)

Section Properties.
Context `{Environment}.

(** ** Running a method step by step *)

Lemma bind_ok {A B} (m : M A) (k : A → M B) self a self' :
  m self = (Ok a, self') → bind m k self = k a self'.
Proof. intros Hm. unfold bind. by rewrite Hm. Qed.

Lemma bind_raise {A B} (m : M A) (k : A → M B) self e self' :
  m self = (Raise e, self') → bind m k self = (Raise e, self').
Proof. intros Hm. unfold bind. by rewrite Hm. Qed.

Lemma keeps_ret {A} (a : A) : keeps (ret a).
Proof. by intros self. Qed.

Lemma keeps_lift {A} (r : result A) : keeps (lift r).
Proof. by intros self. Qed.

Lemma keeps_attr {A} (f : attributes → A) : keeps (attr f).
Proof. by intros self. Qed.

Lemma keeps_bound_attr {A} (f : BeamEmulator → option A) :
  keeps (bound_attr f).
Proof. intros self. unfold bound_attr. by destruct (f self). Qed.

Lemma keeps_bind {A B} (m : M A) (k : A → M B) :
  keeps m → (∀ a, keeps (k a)) → keeps (bind m k).
Proof.
  intros Hm Hk self. unfold bind.
  destruct (Hm self) as (Ha & Hb & Hc).
  destruct (m self) as [[a | e] self']; simpl in *; [| done].
  destruct (Hk a self') as (Ha' & Hb' & Hc').
  repeat split; congruence.
Qed.

Lemma keeps_set_hyper_parameter_interpolater v :
  keeps (set_hyper_parameter_interpolater v).
Proof. by intros self. Qed.

Lemma keeps_set_estimator_hyper_parameters v :
  keeps (set_estimator_hyper_parameters v).
Proof. by intros self. Qed.

Lemma keeps_set_estimator_log_marginal_likelihoods v :
  keeps (set_estimator_log_marginal_likelihoods v).
Proof. by intros self. Qed.

Lemma keeps_set_gpr_score_of_training_set v :
  keeps (set_gpr_score_of_training_set v).
Proof. by intros self. Qed.

Lemma keeps_set_spline_score_of_training_set v :
  keeps (set_spline_score_of_training_set v).
Proof. by intros self. Qed.

Create HintDb keeps.
#[local] Hint Resolve keeps_ret keeps_lift keeps_attr keeps_bound_attr
  keeps_set_hyper_parameter_interpolater keeps_set_estimator_hyper_parameters
  keeps_set_estimator_log_marginal_likelihoods
  keeps_set_gpr_score_of_training_set keeps_set_spline_score_of_training_set
  : keeps.

Ltac keeps_step :=
  first
    [ solve [auto with keeps]
    | match goal with
      | |- keeps (if ?b then _ else _) => destruct b
      | |- keeps (match ?x with _ => _ end) => destruct x
      end
    | apply keeps_bind; [| intros ?] ].

Lemma keeps_hyper_parameter_array : keeps hyper_parameter_array.
Proof. apply keeps_bound_attr. Qed.

Lemma keeps_interpolation_order : keeps interpolation_order.
Proof. apply keeps_bound_attr. Qed.

#[local] Hint Resolve keeps_hyper_parameter_array keeps_interpolation_order
  : keeps.

Lemma keeps_select_regressor e c : keeps (select_regressor e c).
Proof. unfold select_regressor. repeat keeps_step. Qed.

Lemma keeps_fit_gpr c : keeps (fit_gpr c).
Proof.
  unfold fit_gpr. repeat (apply keeps_select_regressor || keeps_step).
Qed.

Lemma keeps_try_score_spline c d : keeps (try_score_spline c d).
Proof.
  assert (Hs : keeps (score_spline c d))
    by (unfold score_spline; repeat keeps_step).
  intros self. unfold try_score_spline.
  destruct (Hs self) as (Ha & Hb & Hc).
  by destruct (score_spline c d self) as [[[] | e] self'].
Qed.

Lemma keeps_fit_spline c : keeps (fit_spline c).
Proof.
  unfold fit_spline. repeat (apply keeps_try_score_spline || keeps_step).
Qed.

Lemma keeps_hyper_parameter_interpolater :
  keeps hyper_parameter_interpolater.
Proof.
  intros self. unfold hyper_parameter_interpolater.
  destruct (_hyper_parameter_interpolater (late self)).
  - apply keeps_bound_attr.
  - revert self. change (keeps fit_interpolater). unfold fit_interpolater.
    repeat (apply keeps_fit_gpr || apply keeps_fit_spline || keeps_step).
Qed.

Lemma keeps_interp_coeff p : keeps (interp_coeff p).
Proof.
  unfold interp_coeff.
  repeat (apply keeps_hyper_parameter_interpolater || keeps_step).
Qed.

(** Without a projector on the instance and without [cryo_basis], reading
    the property fails on the attribute. *)
Lemma cryo_basis_kl_to_beam_unbound self :
  _cryo_basis_kl_to_beam (late self) = None →
  cryo_basis (late self) = None →
  cryo_basis_kl_to_beam self = (Raise AttributeError, self).
Proof.
  intros Hp Hb. unfold cryo_basis_kl_to_beam. rewrite Hp.
  unfold compute_cryo_basis_kl_to_beam, bind, bound_attr. by rewrite Hb.
Qed.

(** ** Construction *)

(** C5 (amended). Construction checks no shape: for all arguments, whether
    their shapes agree or not, [__init__] returns an instance that stores
    them as given (the pixel indices possibly shifted) and binds none of the
    derived attributes; in particular it never fails with
    [DimensionMismatch]. *)
Theorem init_accepts_all_shapes
    (freqs : list R) (nside : Z) (basis : array2)
    (coefficients : tensor3) (grid : list R)
    (mask : list Z) (interpolation_order : Z) (use_gpr : bool)
    (coefficient_order : option Z) (gpr_kwargs : gmap string pyval)
    (return_beam_above_horizon julia : bool) :
  ∃ self,
    __init__ freqs nside basis coefficients grid mask
      interpolation_order use_gpr
      coefficient_order gpr_kwargs return_beam_above_horizon julia = Ok self
    ∧ frequencies (attrs self) = freqs
    ∧ cryobasis (attrs self) = basis
    ∧ cryo_coefficients (attrs self) = coefficients
    ∧ _hyper_parameter_array (attrs self) = Some grid
    ∧ length (unmasked_indices (attrs self)) = length mask
    ∧ late self = unbound.
Proof.
  eexists. split; [reflexivity |]. simpl. repeat split.
  destruct julia; [apply length_map | reflexivity].
Qed.

Lemma int64_wrap_id z : int64_range z → int64_wrap z = z.
Proof.
  unfold int64_range, int64_wrap. intros Hz.
  rewrite Z.mod_small; lia.
Qed.

(** C8. With the one-based flag set, [__init__] stores every pixel index
    decreased by exactly one; without it, the indices are stored unchanged.
    The indices are 64-bit integers other than the least one. *)
Theorem init_shifts_indices_by_one
    (frequencies : list R) (nside : Z) (cryobasis : array2)
    (cryo_coefficients : tensor3) (hyper_parameter_array : list R)
    (mask : list Z) (interpolation_order : Z) (use_gpr : bool)
    (coefficient_order : option Z) (gpr_kwargs : gmap string pyval)
    (return_beam_above_horizon julia : bool) self :
  Forall (fun i => int64_range i ∧ i ≠ (- 2 ^ 63)%Z) mask →
  __init__ frequencies nside cryobasis cryo_coefficients
    hyper_parameter_array mask interpolation_order use_gpr
    coefficient_order gpr_kwargs return_beam_above_horizon julia = Ok self →
  unmasked_indices (attrs self)
  = if julia then map (fun i => (i - 1)%Z) mask else mask.
Proof.
  intros Hrange [= <-]. simpl. destruct julia; [| done].
  unfold minus_one. apply map_ext_Forall.
  eapply Forall_impl; [exact Hrange |].
  intros i [Hi Hmin]. apply int64_wrap_id.
  unfold int64_range in *. lia.
Qed.

(** ** The query without a projector *)

Lemma call_unbound_projector self parameter coeff self1 :
  cryo_basis (late self) = None →
  _cryo_basis_kl_to_beam (late self) = None →
  interp_coeff parameter self = (Ok coeff, self1) →
  return_beam_above_horizon (attrs self) = true
  ∨ frequencies (attrs self) ≠ [] →
  __call__ parameter self = (Raise AttributeError, self1).
Proof.
  intros Hb0 Hp0 Hcoeff Hmode.
  destruct (keeps_interp_coeff parameter self) as (Ha & Hb & Hp).
  rewrite Hcoeff in Ha, Hb, Hp. simpl in Ha, Hb, Hp.
  rewrite Hb0 in Hb. rewrite Hp0 in Hp.
  unfold __call__. rewrite (bind_ok _ _ _ _ _ Hcoeff).
  unfold bind at 1, attr at 1. rewrite Ha.
  destruct (return_beam_above_horizon (attrs self)).
  - by rewrite (bind_raise _ _ _ _ _
                  (cryo_basis_kl_to_beam_unbound _ Hp Hb)).
  - destruct Hmode as [[=] | Hfreq].
    unfold bind at 1, attr at 1. rewrite Ha.
    destruct (frequencies (attrs self)) as [| f fs]; [done |].
    apply bind_raise. simpl. unfold bind at 1, attr at 1.
    by rewrite (bind_raise _ _ _ _ _
                  (cryo_basis_kl_to_beam_unbound _ Hp Hb)).
Qed.

(** C3 (amended). For an emulator built by [__init__], a query whose
    interpolation step completes raises [AttributeError] at the read of
    [cryo_basis] and produces no pixel values: in horizon-restricted mode
    always, in full-sky mode as soon as there is one frequency. *)
Theorem call_after_init_raises_AttributeError
    (frequencies : list R) (nside : Z) (cryobasis : array2)
    (cryo_coefficients : tensor3) (hyper_parameter_array : list R)
    (unmasked_indices : list Z) (interpolation_order : Z) (use_gpr : bool)
    (coefficient_order : option Z) (gpr_kwargs : gmap string pyval)
    (return_beam_above_horizon julia : bool) self parameter coeff self1 :
  __init__ frequencies nside cryobasis cryo_coefficients
    hyper_parameter_array unmasked_indices interpolation_order use_gpr
    coefficient_order gpr_kwargs return_beam_above_horizon julia = Ok self →
  interp_coeff parameter self = (Ok coeff, self1) →
  return_beam_above_horizon = true ∨ frequencies ≠ [] →
  __call__ parameter self = (Raise AttributeError, self1).
Proof.
  intros [= <-] Hcoeff Hmode.
  by apply (call_unbound_projector _ _ coeff).
Qed.

(** ** The Gaussian-process configuration *)

Lemma py_eq_true v name : py_eq v name = true ↔ v = PyStr name.
Proof.
  destruct v as [s | b]; simpl; [| by split].
  rewrite bool_decide_eq_true. split; congruence.
Qed.

Lemma py_eq_unnamed names v name :
  named names v = false → name ∈ names → py_eq v name = false.
Proof.
  intros Hv Hin. destruct (py_eq v name) eqn:E; [| done].
  apply py_eq_true in E as ->. simpl in Hv.
  by rewrite bool_decide_eq_false in Hv.
Qed.

Lemma select_kernel_unnamed v :
  named kernel_names v = false → select_kernel v = Ok None.
Proof.
  intros Hv. unfold select_kernel.
  rewrite !(py_eq_unnamed kernel_names v) by (done || set_solver).
  done.
Qed.

Lemma select_kernel_named v :
  sklearn_installed = true → named kernel_names v = true →
  ∃ k, select_kernel v = Ok (Some k).
Proof.
  intros Hsk Hv. destruct v as [s | b]; [| done]. simpl in Hv.
  apply bool_decide_eq_true in Hv as Hs.
  unfold select_kernel, sklearn_name.
  rewrite Hsk. unfold kernel_names in Hs.
  repeat (apply elem_of_cons in Hs as [-> | Hs]; [by eexists |]).
  by apply elem_of_nil in Hs.
Qed.

Lemma select_kernel_uninstalled v :
  sklearn_installed = false →
  select_kernel v = Raise NameError ∨ select_kernel v = Ok None.
Proof.
  intros Hsk. unfold select_kernel, sklearn_name. rewrite Hsk.
  repeat (case_match; [by left |]). by right.
Qed.

Ltac run :=
  unfold __call__, interp_coeff, hyper_parameter_interpolater,
    fit_interpolater, fit_gpr, fit_spline, select_regressor,
    hyper_parameter_array, interpolation_order, bind, attr, bound_attr,
    lift, ret, getitem, local; simpl.

(** C6 (amended). With scikit-learn installed, an emulator configured for
    Gaussian-process regression with a kernel name outside the enumerated
    four, or with an enumerated kernel and a regressor name outside the
    enumerated two, is constructed without error and fails at its first
    query with [UnboundLocalError]; each enumerated kernel name selects its
    documented kernel with a unit factor, and each enumerated regressor name
    fits the documented regressor. *)
Theorem gpr_unknown_name_raises_UnboundLocalError
    (frequencies : list R) (nside : Z) (cryobasis : array2)
    (cryo_coefficients : tensor3) (hyper_parameter_array : list R)
    (unmasked_indices : list Z) (interpolation_order : Z)
    (coefficient_order : option Z) (gpr_kwargs : gmap string pyval)
    (return_beam_above_horizon julia : bool) parameter reshaped v :
  sklearn_installed = true →
  reshape_tensor (length hyper_parameter_array) cryo_coefficients
  = Ok reshaped →
  gpr_kwargs !! "kernel" = Some v →
  ∃ self,
    __init__ frequencies nside cryobasis cryo_coefficients
      hyper_parameter_array unmasked_indices interpolation_order true
      coefficient_order gpr_kwargs return_beam_above_horizon julia = Ok self
    ∧ (named kernel_names v = false →
       (__call__ parameter self).1 = Raise UnboundLocalError)
    ∧ (∀ n w,
         named kernel_names v = true →
         gpr_kwargs !! "normalize_y" = Some n →
         gpr_kwargs !! "regressor" = Some w →
         named regressor_names w = false →
         (__call__ parameter self).1 = Raise UnboundLocalError)
    ∧ select_kernel (PyStr "RBF") = Ok (Some (Scaled 1 (RBF 1)))
    ∧ select_kernel (PyStr "Matern_2_5")
      = Ok (Some (Scaled 1 (Matern 1 (5 # 2))))
    ∧ select_kernel (PyStr "Matern_1_5")
      = Ok (Some (Scaled 1 (Matern 1 (3 # 2))))
    ∧ select_kernel (PyStr "RQ")
      = Ok (Some (Scaled 1 (RationalQuadratic 1 (3 # 2))))
    ∧ (∀ estimator,
         gpr_kwargs !! "regressor" = Some (PyStr "MultiOutput") →
         select_regressor estimator reshaped self
         = (regr <~ fit_regressor (MultiOutputRegressor (-1)) estimator
                      (column hyper_parameter_array) reshaped ;;;
            Ok (Some regr), self))
    ∧ (∀ estimator,
         gpr_kwargs !! "regressor" = Some (PyStr "RegressorChain") →
         select_regressor estimator reshaped self
         = (regr <~ fit_regressor RegressorChain estimator
                      (column hyper_parameter_array) reshaped ;;;
            Ok (Some regr), self)).
Proof.
  intros Hsk Hshape Hkernel. eexists. split; [reflexivity |].
  split; [| split].
  - intros Hv. run. rewrite Hshape, Hkernel. simpl.
    rewrite (select_kernel_unnamed _ Hv). unfold sklearn_name.
    by rewrite Hsk.
  - intros n w Hv Hn Hw Hunnamed. run. rewrite Hshape, Hkernel. simpl.
    destruct (select_kernel_named _ Hsk Hv) as [k ->].
    unfold sklearn_name. rewrite Hsk, Hn, Hw. simpl.
    by rewrite !(py_eq_unnamed regressor_names w) by (done || set_solver).
  - unfold select_kernel, sklearn_name. rewrite Hsk. repeat split.
    + intros estimator Hw. run. rewrite Hw. simpl.
      unfold sklearn_name. rewrite Hsk.
      by destruct (fit_regressor _ _ _ _).
    + intros estimator Hw. run. rewrite Hw. simpl.
      unfold sklearn_name. rewrite Hsk.
      by destruct (fit_regressor _ _ _ _).
Qed.

Lemma spline_first_read_uninstalled self x k reshaped s t predicted :
  sklearn_installed = false →
  use_gpr (attrs self) = false →
  _hyper_parameter_interpolater (late self) = None →
  _hyper_parameter_array (attrs self) = Some x →
  _interpolation_order (attrs self) = Some k →
  reshape_tensor (length x) (cryo_coefficients (attrs self)) = Ok reshaped →
  make_interp_spline x (cryo_coefficients (attrs self)) k = Ok s →
  spline_at_nodes s x = Ok t →
  reshape_tensor (length x) t = Ok predicted →
  hyper_parameter_interpolater self
  = (match score_handler ImportError with
     | Ok _ => Ok (Spline s)
     | Raise e => Raise e
     end,
     (set_hyper_parameter_interpolater (Spline s) self).2).
Proof.
  intros Hsk Hgpr Hnone Hx Hk Hshape Hfit Hnodes Hpredicted.
  unfold hyper_parameter_interpolater. rewrite Hnone. run.
  repeat (progress
            (rewrite ?Hx, ?Hshape, ?Hgpr, ?Hk, ?Hfit, ?Hnodes, ?Hpredicted;
             simpl)).
  unfold try_score_spline, score_spline. run.
  rewrite Hsk. by destruct (score_handler ImportError) as [[] | e].
Qed.

(** In spline mode, with a spline on the instance, the interpolation step of
    a query is the value of that spline at [parameter[0]]. *)
Lemma interp_coeff_spline_bound self s p ps :
  use_gpr (attrs self) = false →
  _hyper_parameter_interpolater (late self) = Some (Spline s) →
  interp_coeff (p :: ps) self = (spline_at s p, self).
Proof.
  intros Hgpr Hitp. run. rewrite Hgpr. simpl. rewrite Hitp. simpl.
  by rewrite ?Hitp.
Qed.

(** In spline mode the first read of the interpolater binds the spline as
    soon as [make_interp_spline] has returned it: whatever the steps after
    line 147 do, the spline is on the instance afterwards, and a read that
    returns gives that spline. *)
Lemma spline_first_read_binds self x k reshaped s :
  use_gpr (attrs self) = false →
  _hyper_parameter_interpolater (late self) = None →
  _hyper_parameter_array (attrs self) = Some x →
  _interpolation_order (attrs self) = Some k →
  reshape_tensor (length x) (cryo_coefficients (attrs self)) = Ok reshaped →
  make_interp_spline x (cryo_coefficients (attrs self)) k = Ok s →
  _hyper_parameter_interpolater (late (hyper_parameter_interpolater self).2)
  = Some (Spline s)
  ∧ ∀ itp, (hyper_parameter_interpolater self).1 = Ok itp → itp = Spline s.
Proof.
  intros Hgpr Hnone Hx Hk Hshape Hfit.
  unfold hyper_parameter_interpolater. rewrite Hnone. run.
  repeat (progress (rewrite ?Hx, ?Hshape, ?Hgpr, ?Hk, ?Hfit; simpl)).
  destruct (spline_at_nodes s x) as [t | e]; simpl;
    [| split; [reflexivity | discriminate]].
  destruct (reshape_tensor (length x) t) as [predicted | e]; simpl;
    [| split; [reflexivity | discriminate]].
  unfold try_score_spline, score_spline. run.
  destruct sklearn_installed; simpl.
  - destruct (r2_score reshaped predicted) as [v | e]; simpl.
    + split; [reflexivity | by intros itp [= <-]].
    + destruct (score_handler e) as [[] | e']; simpl;
        (split; [reflexivity | by intros itp [= <-]]).
  - destruct (score_handler ImportError) as [[] | e']; simpl;
      (split; [reflexivity | by intros itp [= <-]]).
Qed.

(** C7 (amended). Without scikit-learn, an emulator configured for
    Gaussian-process regression is still constructed without error; the
    failure surfaces at its first query, as a [NameError] on the first
    scikit-learn name that is read. The spline strategy, whatever
    [gpr_kwargs] holds, reads no scikit-learn name outside its score
    diagnostic, which runs after the spline is bound to the instance: the
    first read of the interpolater gives what the handler of the failed
    import gives (the spline when the handler lets the fit go on, the
    handler's exception otherwise), and in both cases the spline is on the
    instance afterwards, so that every query from then on evaluates it at
    [parameter[0]]. *)
Theorem missing_backend_raises_NameError_at_first_query
    (frequencies : list R) (nside : Z) (cryobasis : array2)
    (cryo_coefficients : tensor3) (hyper_parameter_array : list R)
    (unmasked_indices : list Z) (interpolation_order : Z)
    (coefficient_order : option Z) (gpr_kwargs : gmap string pyval)
    (return_beam_above_horizon julia : bool) parameter reshaped v :
  sklearn_installed = false →
  reshape_tensor (length hyper_parameter_array) cryo_coefficients
  = Ok reshaped →
  gpr_kwargs !! "kernel" = Some v →
  (∃ self,
     __init__ frequencies nside cryobasis cryo_coefficients
       hyper_parameter_array unmasked_indices interpolation_order true
       coefficient_order gpr_kwargs return_beam_above_horizon julia = Ok self
     ∧ (__call__ parameter self).1 = Raise NameError)
  ∧ (∀ (spline_kwargs : gmap string pyval) s t predicted,
       make_interp_spline hyper_parameter_array cryo_coefficients
         interpolation_order = Ok s →
       spline_at_nodes s hyper_parameter_array = Ok t →
       reshape_tensor (length hyper_parameter_array) t = Ok predicted →
       ∃ self self',
         __init__ frequencies nside cryobasis cryo_coefficients
           hyper_parameter_array unmasked_indices interpolation_order false
           coefficient_order spline_kwargs return_beam_above_horizon julia
         = Ok self
         ∧ hyper_parameter_interpolater self
           = (match score_handler ImportError with
              | Ok _ => Ok (Spline s)
              | Raise e => Raise e
              end, self')
         ∧ (score_handler ImportError = Ok tt →
            ∀ p ps, (interp_coeff (p :: ps) self).1 = spline_at s p)
         ∧ (∀ p ps, interp_coeff (p :: ps) self' = (spline_at s p, self'))).
Proof.
  intros Hsk Hshape Hkernel. split.
  - eexists. split; [reflexivity |]. run. rewrite Hshape, Hkernel. simpl.
    destruct (select_kernel_uninstalled v Hsk) as [-> | ->]; [done |].
    unfold sklearn_name. by rewrite Hsk.
  - intros spline_kwargs s t predicted Hfit Hnodes Hpredicted.
    eexists _, _. split; [reflexivity |].
    match goal with
    | |- context [hyper_parameter_interpolater ?e] =>
        pose proof (spline_first_read_uninstalled e _ _ _ _ _ _
                      Hsk eq_refl eq_refl eq_refl eq_refl
                      Hshape Hfit Hnodes Hpredicted) as Hread
    end.
    split; [exact Hread |]. split.
    + intros Hhandler p ps. rewrite Hhandler in Hread.
      unfold interp_coeff, bind at 1, attr at 1. simpl.
      rewrite (bind_ok _ _ _ _ _ Hread). simpl.
      unfold bind, lift. simpl. by destruct (spline_at s p).
    + intros p ps. by apply interp_coeff_spline_bound.
Qed.

(** ** The spline at the training nodes *)

(** C4. With the spline strategy, on an emulator as [__init__] builds it:
    the grid, the coefficients and the order are handed to
    [make_interp_spline] as they were given, and the interpolation step of a
    query returns the value of the spline at [parameter[0]] as it is. So,
    when the spline reproduces the stored slice at every grid node within
    the tolerance [close], the interpolation step of a query at the grid
    node number [i] returns an array (one row per frequency, one column per
    coefficient) that is within [close] of the slice stored for node [i]:
    at the first query when the fit completes, and at every query made
    after the first read of the interpolater, whatever that read returned
    or raised. *)
Theorem spline_query_reproduces_training_nodes
    (close : array2 → array2 → Prop)
    (frequencies : list R) (nside : Z) (cryobasis : array2)
    (cryo_coefficients : tensor3) (hyper_parameter_array : list R)
    (unmasked_indices : list Z) (interpolation_order : Z)
    (coefficient_order : option Z) (gpr_kwargs : gmap string pyval)
    (return_beam_above_horizon julia : bool) reshaped s :
  reshape_tensor (length hyper_parameter_array) cryo_coefficients
  = Ok reshaped →
  make_interp_spline hyper_parameter_array cryo_coefficients
    interpolation_order = Ok s →
  reproduces_nodes close s hyper_parameter_array cryo_coefficients →
  ∃ self,
    __init__ frequencies nside cryobasis cryo_coefficients
      hyper_parameter_array unmasked_indices interpolation_order false
      coefficient_order gpr_kwargs return_beam_above_horizon julia = Ok self
    ∧ (∀ itp i h rest,
         (hyper_parameter_interpolater self).1 = Ok itp →
         hyper_parameter_array !! i = Some h →
         ∃ v, (interp_coeff (h :: rest) self).1 = Ok v
              ∧ close v (node_slice cryo_coefficients i))
    ∧ (∀ i h rest,
         hyper_parameter_array !! i = Some h →
         ∃ v, interp_coeff (h :: rest) (hyper_parameter_interpolater self).2
              = (Ok v, (hyper_parameter_interpolater self).2)
              ∧ close v (node_slice cryo_coefficients i)).
Proof.
  intros Hshape Hfit Hnodes.
  eexists. split; [reflexivity |].
  match goal with
  | |- context [hyper_parameter_interpolater ?e] =>
      destruct (spline_first_read_binds e _ _ _ _
                  eq_refl eq_refl eq_refl eq_refl Hshape Hfit)
        as [Hbound Hitp];
      pose proof (keeps_hyper_parameter_interpolater e) as (Hattrs & _);
      set (self := e) in *
  end.
  split.
  - intros itp i h rest Hread Hi.
    destruct (Hnodes i h Hi) as (v & Hv & Hclose).
    exists v. split; [| exact Hclose].
    apply Hitp in Hread as Hs.
    unfold interp_coeff, bind at 1, attr at 1. simpl.
    destruct (hyper_parameter_interpolater self) as [r self1] eqn:Hrun.
    simpl in Hread. subst r itp.
    rewrite (bind_ok _ _ _ _ _ Hrun). simpl.
    unfold bind, lift. simpl. by rewrite Hv.
  - intros i h rest Hi.
    destruct (Hnodes i h Hi) as (v & Hv & Hclose).
    exists v. split; [| exact Hclose].
    rewrite <- Hv. apply interp_coeff_spline_bound; [| exact Hbound].
    by rewrite Hattrs.
Qed.

(** ** The horizon-restricted query *)

(** C2 (amended). In horizon-restricted mode, when the interpolation step
    yields one row of coefficients per frequency and the projector is
    available with as many columns as there are coefficients, the query
    returns an array with one row per pixel of the projector and one column
    per frequency (shape [P, F]): [P] values for every frequency. *)
Theorem horizon_query_returns_pixels_by_frequencies
    self parameter coeff self1 basis self2 :
  return_beam_above_horizon (attrs self) = true →
  interp_coeff parameter self = (Ok coeff, self1) →
  cryo_basis_kl_to_beam self1 = (Ok basis, self2) →
  shape1 basis = shape1 coeff →
  shape0 coeff = length (frequencies (attrs self)) →
  ∃ a,
    __call__ parameter self = (Ok (Array2d a), self2)
    ∧ shape0 a = shape0 basis
    ∧ shape1 a = length (frequencies (attrs self))
    ∧ length (rows a) = length (rows basis)
    ∧ Forall (fun r => length r = length (frequencies (attrs self)))
        (rows a).
Proof.
  intros Hmode Hcoeff Hbasis Hcols Hfreq.
  destruct (keeps_interp_coeff parameter self) as (Ha & _ & _).
  rewrite Hcoeff in Ha. simpl in Ha.
  unfold __call__. rewrite (bind_ok _ _ _ _ _ Hcoeff).
  unfold bind at 1, attr at 1. rewrite Ha, Hmode.
  rewrite (bind_ok _ _ _ _ _ Hbasis).
  unfold bind, lift, ret, matmul.
  rewrite decide_True by (simpl; congruence).
  eexists. split; [reflexivity |]. simpl.
  repeat split; [done | by rewrite length_map |].
  apply Forall_forall. intros r Hr.
  apply list_elem_of_In, in_map_iff in Hr as (b & <- & _).
  by rewrite !length_map, length_seq.
Qed.

(** ** Truncation at the full coefficient count *)

Section Agree.
Variable L : Z.

Lemma agree_ret {A} (a : A) : agree L (ret a).
Proof. intros self _. by exists (Ok a), self. Qed.

Lemma agree_lift {A} (r : result A) : agree L (lift r).
Proof. intros self _. by exists r, self. Qed.

Lemma agree_attr {A} (f : attributes → A) :
  (∀ k self, f (attrs (set_coefficient_order k self)) = f (attrs self)) →
  agree L (attr f).
Proof.
  intros Hf self _. exists (Ok (f (attrs self))), self.
  unfold attr. by rewrite !Hf.
Qed.

Lemma agree_bound_attr {A} (f : BeamEmulator → option A) :
  (∀ k self, f (set_coefficient_order k self) = f self) →
  agree L (bound_attr f).
Proof.
  intros Hf self _. unfold bound_attr. rewrite !Hf.
  destruct (f self) as [a |]; by eexists _, self.
Qed.

Lemma agree_set_late (g : derived → derived) :
  (∀ d, cryo_basis (g d) = cryo_basis d) → agree L (set_late g).
Proof.
  intros Hg self _.
  exists (Ok tt), {| attrs := attrs self; late := g (late self) |}.
  repeat split. apply Hg.
Qed.

Lemma agree_bind {A B} (m : M A) (k : A → M B) :
  agree L m → (∀ a, agree L (k a)) → agree L (bind m k).
Proof.
  intros Hm Hk self Hwidth.
  destruct (Hm self Hwidth) as (r & self' & H1 & H2 & Hb).
  unfold bind. rewrite H1, H2.
  destruct r as [a | e].
  - assert (Hwidth' : full_width L self')
      by (intros b; rewrite Hb; apply Hwidth).
    destruct (Hk a self' Hwidth') as (r' & self'' & H1' & H2' & Hb').
    exists r', self''. repeat split; [done | done | congruence].
  - by exists (Raise e), self'.
Qed.

Ltac agree_step :=
  first
    [ apply agree_ret
    | apply agree_lift
    | apply agree_attr; reflexivity
    | apply agree_bound_attr; reflexivity
    | apply agree_set_late; reflexivity
    | match goal with
      | |- agree _ (if ?b then _ else _) => destruct b
      | |- agree _ (match ?x with _ => _ end) => destruct x
      end
    | apply agree_bind; [| intros ?] ].

Lemma agree_select_regressor e c : agree L (select_regressor e c).
Proof.
  unfold select_regressor, hyper_parameter_array. repeat agree_step.
Qed.

Lemma agree_fit_gpr c : agree L (fit_gpr c).
Proof.
  unfold fit_gpr, hyper_parameter_array,
    set_estimator_log_marginal_likelihoods, set_estimator_hyper_parameters,
    set_gpr_score_of_training_set, set_hyper_parameter_interpolater.
  repeat (apply agree_select_regressor || agree_step).
Qed.

Lemma agree_try_score_spline c d : agree L (try_score_spline c d).
Proof.
  assert (Hs : agree L (score_spline c d)).
  { unfold score_spline, set_spline_score_of_training_set.
    repeat agree_step. }
  intros self Hwidth.
  destruct (Hs self Hwidth) as (r & self' & H1 & H2 & Hb).
  unfold try_score_spline. rewrite H1, H2.
  destruct r as [[] | e]; by eexists _, self'.
Qed.

Lemma agree_fit_spline c : agree L (fit_spline c).
Proof.
  unfold fit_spline, hyper_parameter_array, interpolation_order,
    set_hyper_parameter_interpolater.
  repeat (apply agree_try_score_spline || agree_step).
Qed.

Lemma agree_hyper_parameter_interpolater :
  agree L hyper_parameter_interpolater.
Proof.
  assert (Hfit : agree L fit_interpolater).
  { unfold fit_interpolater, hyper_parameter_array.
    repeat (apply agree_fit_gpr || apply agree_fit_spline || agree_step). }
  intros self Hwidth. unfold hyper_parameter_interpolater. simpl.
  destruct (_hyper_parameter_interpolater (late self)) eqn:E.
  - unfold bound_attr. simpl. rewrite E. by eexists _, self.
  - by apply Hfit.
Qed.

Lemma agree_interp_coeff p : agree L (interp_coeff p).
Proof.
  unfold interp_coeff.
  repeat (apply agree_hyper_parameter_interpolater || agree_step).
Qed.

Lemma slice_stop_full n : slice_stop n (Some (Z.of_nat n)) = slice_stop n None.
Proof.
  unfold slice_stop. case_match; [lia |].
  rewrite Z.min_id. apply Nat2Z.id.
Qed.

Lemma agree_cryo_basis_kl_to_beam : agree L cryo_basis_kl_to_beam.
Proof.
  intros self Hwidth. unfold cryo_basis_kl_to_beam. simpl.
  destruct (_cryo_basis_kl_to_beam (late self)) eqn:E.
  - unfold bound_attr. simpl. rewrite E. by eexists _, self.
  - unfold compute_cryo_basis_kl_to_beam, bind, bound_attr, attr. simpl.
    destruct (cryo_basis (late self)) as [b |] eqn:Eb.
    + rewrite (Hwidth b Eb). unfold slice_cols. simpl.
      pose proof (slice_stop_full (shape0 b)) as Hs.
      unfold slice_stop in Hs. rewrite Hs.
      eexists _, {| attrs := attrs self; late := _ |}.
      split; [reflexivity |]. split; [reflexivity |]. simpl. done.
    + by eexists _, self.
Qed.

Lemma agree_full_sky freqs ifreq coeff : agree L (full_sky freqs ifreq coeff).
Proof.
  revert ifreq. induction freqs as [| f freqs IH]; intros ifreq; simpl.
  - apply agree_ret.
  - repeat (apply agree_cryo_basis_kl_to_beam || apply IH || agree_step).
Qed.

Lemma agree_call p : agree L (__call__ p).
Proof.
  unfold __call__.
  repeat (apply agree_interp_coeff || apply agree_cryo_basis_kl_to_beam
          || apply agree_full_sky || agree_step).
Qed.

End Agree.

(** C9. Two emulators constructed from the same arguments, one with
    [coefficient_order = L] and one with [coefficient_order = None], give
    the same result for every query, whatever derived attributes [d] have
    been bound on both in the meantime; [L] is the number of coefficient
    columns of the untruncated projector. *)
Theorem full_order_matches_no_truncation
    (frequencies : list R) (nside : Z) (cryobasis : array2)
    (cryo_coefficients : tensor3) (hyper_parameter_array : list R)
    (unmasked_indices : list Z) (interpolation_order : Z) (use_gpr : bool)
    (gpr_kwargs : gmap string pyval) (return_beam_above_horizon julia : bool)
    (L : Z) (d : derived) self_L self_None parameter :
  (∀ b, cryo_basis d = Some b → L = Z.of_nat (shape0 b)) →
  __init__ frequencies nside cryobasis cryo_coefficients
    hyper_parameter_array unmasked_indices interpolation_order use_gpr
    (Some L) gpr_kwargs return_beam_above_horizon julia = Ok self_L →
  __init__ frequencies nside cryobasis cryo_coefficients
    hyper_parameter_array unmasked_indices interpolation_order use_gpr
    None gpr_kwargs return_beam_above_horizon julia = Ok self_None →
  (__call__ parameter {| attrs := attrs self_L; late := d |}).1
  = (__call__ parameter {| attrs := attrs self_None; late := d |}).1.
Proof.
  intros Hwidth [= <-] [= <-]. simpl.
  match goal with
  | |- (__call__ _ {| attrs := ?a; late := _ |}).1 = _ =>
      destruct (agree_call L parameter {| attrs := a; late := d |} Hwidth)
        as (r & self' & H1 & H2 & _)
  end.
  unfold set_coefficient_order in H1, H2. simpl in H1, H2.
  by rewrite H1, H2.
Qed.

(** ** The full-sky query with a projector on the instance *)

Lemma assign_all_length (a : list R) pv :
  length (assign_all a pv) = length a.
Proof.
  revert a. induction pv as [| [p v] pv IH]; intros a; [done |].
  unfold assign_all in *. simpl. by rewrite IH, length_insert.
Qed.

Lemma assign_all_other (a : list R) pv q :
  (∀ j p v, pv !! j = Some (p, v) → p ≠ q) →
  assign_all a pv !! q = a !! q.
Proof.
  revert a. induction pv as [| [p v] pv IH]; intros a Hpv; [done |].
  unfold assign_all in *. simpl. rewrite IH.
  - apply list_lookup_insert_ne. by apply (Hpv 0 p v).
  - intros j p' v' Hj. by apply (Hpv (S j) p' v').
Qed.

Lemma assign_all_last (a : list R) pv j q v :
  pv !! j = Some (q, v) →
  q < length a →
  (∀ j' p' v', j < j' → pv !! j' = Some (p', v') → p' ≠ q) →
  assign_all a pv !! q = Some v.
Proof.
  revert a j. induction pv as [| [p w] pv IH]; intros a j Hj Hq Hlater;
    [done |].
  destruct j as [| j]; simpl in Hj.
  - injection Hj as -> ->.
    change (assign_all a ((q, v) :: pv)) with (assign_all (<[q:=v]> a) pv).
    rewrite assign_all_other.
    + by apply list_lookup_insert_eq.
    + intros j' p' v' Hj'. apply (Hlater (S j') p' v'); [lia | done].
  - change (assign_all a ((p, w) :: pv)) with (assign_all (<[p:=w]> a) pv).
    apply (IH _ j); [done | by rewrite length_insert |].
    intros j' p' v' Hlt Hj'. apply (Hlater (S j') p' v'); [lia | done].
Qed.

Lemma position_lt npix i : addressable npix i → position npix i < npix.
Proof.
  unfold addressable, position. intros Hi.
  assert (0 <= i mod Z.of_nat npix < Z.of_nat npix)%Z
    by (apply Z.mod_pos_bound; lia).
  lia.
Qed.

(** The index [-1] addresses the last pixel. *)
Lemma position_minus_one npix : npix ≠ 0 → position npix (-1) = npix - 1.
Proof.
  intros Hn. unfold position.
  replace (-1)%Z with ((Z.of_nat npix - 1) + (-1) * Z.of_nat npix)%Z by lia.
  rewrite Z.mod_add by lia. rewrite Z.mod_small by lia. lia.
Qed.

Lemma scatter_length npix idx vals : length (scatter npix idx vals) = npix.
Proof.
  unfold scatter, zeros. by rewrite assign_all_length, length_replicate.
Qed.

(** A pixel that no index addresses keeps the zero it was created with. *)
Lemma scatter_unaddressed npix idx vals q :
  q < npix →
  (∀ i, i ∈ idx → position npix i ≠ q) →
  scatter npix idx vals !! q = Some r0.
Proof.
  intros Hq Hidx. unfold scatter. rewrite assign_all_other.
  - by apply lookup_replicate_2.
  - intros j p v Hj. apply lookup_zip_with_Some in Hj
      as (p' & v' & [= <- <-] & Hp & _).
    apply list_lookup_fmap_Some in Hp as (i & -> & Hi).
    apply Hidx. by eapply list_elem_of_lookup_2.
Qed.

(** A pixel holds the value of the last index that addresses it. *)
Lemma scatter_last npix idx vals j i v :
  idx !! j = Some i →
  vals !! j = Some v →
  addressable npix i →
  (∀ j' i', j < j' → idx !! j' = Some i' →
            position npix i' ≠ position npix i) →
  scatter npix idx vals !! position npix i = Some v.
Proof.
  intros Hi Hv Hrange Hlater. unfold scatter.
  apply (assign_all_last _ _ j).
  - apply lookup_zip_with_Some. exists (position npix i), v.
    split; [done |]. split; [| done].
    by rewrite list_lookup_fmap, Hi.
  - unfold zeros. rewrite length_replicate. by apply position_lt.
  - intros j' p' v' Hlt Hj'. apply lookup_zip_with_Some in Hj'
      as (p'' & v'' & [= <- <-] & Hp & _).
    apply list_lookup_fmap_Some in Hp as (i' & -> & Hi').
    by apply (Hlater j' i').
Qed.

Lemma normalize_index_addressable n i :
  addressable n i → normalize_index n i = Ok (position n i).
Proof.
  unfold addressable, normalize_index, position. intros Hi.
  rewrite (proj2 (andb_true_iff _ _)) by (split; lia).
  f_equal. destruct (i <? 0)%Z eqn:E.
  - replace (i mod Z.of_nat n)%Z with (i + Z.of_nat n)%Z; [done |].
    replace i with ((i + Z.of_nat n) + (-1) * Z.of_nat n)%Z at 2 by lia.
    rewrite Z.mod_add by lia. rewrite Z.mod_small; lia.
  - rewrite Z.mod_small; lia.
Qed.

Lemma rmapM_normalize_index n idx :
  Forall (addressable n) idx →
  rmapM (normalize_index n) idx = Ok (map (position n) idx).
Proof.
  induction 1 as [| i idx Hi _ IH]; [done |]. simpl.
  by rewrite (normalize_index_addressable _ _ Hi), IH.
Qed.

Lemma setitem_fancy_zeros npix idx vals :
  length vals = length idx →
  Forall (addressable npix) idx →
  setitem_fancy (zeros npix) idx vals = Ok (scatter npix idx vals).
Proof.
  intros Hlen Hidx. unfold setitem_fancy, broadcast_to.
  rewrite decide_True by done. simpl.
  unfold zeros at 1. rewrite length_replicate.
  by rewrite (rmapM_normalize_index _ _ Hidx).
Qed.

Lemma cryo_basis_kl_to_beam_bound self basis :
  _cryo_basis_kl_to_beam (late self) = Some basis →
  cryo_basis_kl_to_beam self = (Ok basis, self).
Proof.
  intros Hb. unfold cryo_basis_kl_to_beam, bound_attr. by rewrite Hb.
Qed.

(** After a successful read the projector is on the instance, and the
    attributes bound by [__init__] are as before. *)
Lemma cryo_basis_kl_to_beam_ok self basis self' :
  cryo_basis_kl_to_beam self = (Ok basis, self') →
  _cryo_basis_kl_to_beam (late self') = Some basis
  ∧ attrs self' = attrs self.
Proof.
  unfold cryo_basis_kl_to_beam.
  destruct (_cryo_basis_kl_to_beam (late self)) as [b |] eqn:E.
  - unfold bound_attr. rewrite E. by intros [= <- <-].
  - unfold compute_cryo_basis_kl_to_beam, bind, bound_attr, attr. simpl.
    destruct (cryo_basis (late self)); [| done].
    by intros [= <- <-].
Qed.

Lemma full_sky_bound freqs ifreq coeff self basis :
  _cryo_basis_kl_to_beam (late self) = Some basis →
  Forall (fun row => length row = shape1 basis) (rows coeff) →
  length (rows basis) = length (unmasked_indices (attrs self)) →
  Forall (addressable (Z.to_nat (nside2npix (nside (attrs self)))))
    (unmasked_indices (attrs self)) →
  ifreq + length freqs ≤ length (rows coeff) →
  full_sky freqs ifreq coeff self
  = (Ok (map (fun row =>
            scatter (Z.to_nat (nside2npix (nside (attrs self))))
              (unmasked_indices (attrs self)) (project basis row))
          (take (length freqs) (drop ifreq (rows coeff)))),
     self).
Proof.
  intros Hb Hrows Hlen Hidx.
  revert ifreq. induction freqs as [| f freqs IH]; intros ifreq Hfreqs;
    simpl in *; [done |].
  destruct (lookup_lt_is_Some_2 (rows coeff) ifreq) as [row Hrow]; [lia |].
  unfold bind at 1, attr at 1.
  rewrite (bind_ok _ _ _ _ _ (cryo_basis_kl_to_beam_bound _ _ Hb)).
  unfold bind at 1, lift at 1, getrow. rewrite Hrow.
  unfold bind at 1, lift at 1, matmul_vec.
  rewrite decide_True
    by (symmetry; eapply (proj1 (Forall_lookup _ _) Hrows); done).
  unfold bind at 1, attr at 1. unfold bind at 1, lift at 1.
  fold (project basis row).
  rewrite setitem_fancy_zeros
    by (done || unfold project; by rewrite length_map).
  rewrite (bind_ok _ _ _ _ _ (IH (S ifreq) ltac:(lia))).
  unfold ret. do 2 f_equal.
  by rewrite (drop_S _ _ _ Hrow).
Qed.

(** When the interpolation step yields one row of coefficients per frequency
    and the projector is available, with as many columns as there are
    coefficients and as many rows as there are pixel indices, all of them
    addressable, the full-sky query returns one map of [12 * nside^2] pixels
    per frequency: the scatter of the projected values. *)
Lemma full_sky_query_with_projector
    self parameter coeff self1 basis self2 :
  return_beam_above_horizon (attrs self) = false →
  interp_coeff parameter self = (Ok coeff, self1) →
  cryo_basis_kl_to_beam self1 = (Ok basis, self2) →
  frequencies (attrs self) ≠ [] →
  array2_ok coeff = true →
  shape0 coeff = length (frequencies (attrs self)) →
  shape1 basis = shape1 coeff →
  length (rows basis) = length (unmasked_indices (attrs self)) →
  Forall (addressable (Z.to_nat (nside2npix (nside (attrs self)))))
    (unmasked_indices (attrs self)) →
  __call__ parameter self
  = (Ok (Array2d
           {| shape0 := length (frequencies (attrs self));
              shape1 := Z.to_nat (nside2npix (nside (attrs self)));
              rows :=
                map (fun row =>
                       scatter (Z.to_nat (nside2npix (nside (attrs self))))
                         (unmasked_indices (attrs self)) (project basis row))
                  (rows coeff) |}),
     self2).
Proof.
  intros Hmode Hcoeff Hbasis Hfreqs Hok Hrows Hcols Hlen Hidx.
  destruct (keeps_interp_coeff parameter self) as (Ha & _ & _).
  rewrite Hcoeff in Ha. simpl in Ha.
  destruct (cryo_basis_kl_to_beam_ok _ _ _ Hbasis) as (Hb & Ha2).
  rewrite Ha in Ha2.
  apply andb_true_iff in Hok as (Hn & Hall).
  apply bool_decide_eq_true in Hn.
  assert (Hall' : Forall (fun row => length row = shape1 basis) (rows coeff)).
  { apply Forall_forall. intros row Hrow.
    rewrite forallb_forall in Hall.
    apply list_elem_of_In, Hall, bool_decide_eq_true in Hrow. congruence. }
  unfold __call__. rewrite (bind_ok _ _ _ _ _ Hcoeff).
  unfold bind at 1, attr at 1. rewrite Ha, Hmode.
  unfold bind at 1, attr at 1. rewrite Ha.
  destruct (frequencies (attrs self)) as [| f freqs] eqn:Ef; [done |].
  assert (Hloop :
    full_sky (f :: freqs) 0 coeff self1
    = (Ok (map (fun row =>
              scatter (Z.to_nat (nside2npix (nside (attrs self))))
                (unmasked_indices (attrs self)) (project basis row))
            (rows coeff)),
       self2)).
  { simpl. unfold bind at 1, attr at 1.
    rewrite (bind_ok _ _ _ _ _ Hbasis).
    destruct (rows coeff) as [| row rest] eqn:Er;
      [simpl in *; lia |].
    unfold bind at 1, lift at 1, getrow. rewrite Er. simpl.
    unfold bind at 1, lift at 1, matmul_vec.
    rewrite decide_True by (symmetry; by inversion Hall').
    unfold bind at 1, attr at 1. unfold bind at 1, lift at 1.
    fold (project basis row). rewrite Ha2, Ha.
    rewrite setitem_fancy_zeros
      by (done || unfold project; by rewrite length_map).
    rewrite (bind_ok _ _ _ _ _
               (full_sky_bound freqs 1 coeff self2 basis Hb
                  ltac:(by rewrite Er) ltac:(by rewrite Ha2)
                  ltac:(by rewrite Ha2)
                  ltac:(rewrite Er; simpl in *; lia))).
    unfold ret. rewrite Ha2, Er. simpl. rewrite drop_0.
    rewrite take_ge by (simpl in *; lia). done. }
  rewrite (bind_ok _ _ _ _ _ Hloop). unfold ret.
  destruct (rows coeff) as [| row rest] eqn:Er; [simpl in *; lia |].
  simpl. rewrite scatter_length, length_map.
  do 4 f_equal. simpl in *. lia.
Qed.

(** Under the same conditions, what the specification asks of the full-sky
    query holds: every pixel that no index addresses is zero, and every
    addressed pixel holds the value projected for the last index that
    addresses it. *)
Lemma full_sky_query_masks_and_fills
    self parameter coeff self1 basis self2 :
  return_beam_above_horizon (attrs self) = false →
  interp_coeff parameter self = (Ok coeff, self1) →
  cryo_basis_kl_to_beam self1 = (Ok basis, self2) →
  frequencies (attrs self) ≠ [] →
  array2_ok coeff = true →
  shape0 coeff = length (frequencies (attrs self)) →
  shape1 basis = shape1 coeff →
  length (rows basis) = length (unmasked_indices (attrs self)) →
  Forall (addressable (Z.to_nat (nside2npix (nside (attrs self)))))
    (unmasked_indices (attrs self)) →
  let npix := Z.to_nat (nside2npix (nside (attrs self))) in
  let idx := unmasked_indices (attrs self) in
  ∃ out,
    __call__ parameter self = (Ok (Array2d out), self2)
    ∧ shape0 out = length (frequencies (attrs self))
    ∧ shape1 out = npix
    ∧ ∀ f row,
        rows coeff !! f = Some row →
        ∃ beam,
          rows out !! f = Some beam
          ∧ length beam = npix
          ∧ (∀ q, q < npix →
                  (∀ i, i ∈ idx → position npix i ≠ q) →
                  beam !! q = Some r0)
          ∧ (∀ j i v,
               idx !! j = Some i →
               project basis row !! j = Some v →
               (∀ j' i', j < j' → idx !! j' = Some i' →
                         position npix i' ≠ position npix i) →
               beam !! position npix i = Some v).
Proof.
  intros Hmode Hcoeff Hbasis Hfreqs Hok Hrows Hcols Hlen Hidx npix idx.
  eexists. split.
  { by apply (full_sky_query_with_projector _ _ coeff self1 basis). }
  simpl. split; [done |]. split; [done |].
  intros f row Hrow. eexists. split.
  { rewrite list_lookup_fmap, Hrow. reflexivity. }
  split; [apply scatter_length |]. split.
  - intros q Hq Hfree. by apply scatter_unaddressed.
  - intros j i v Hi Hv Hlater. apply (scatter_last _ _ _ j); try done.
    eapply (proj1 (Forall_lookup _ _) Hidx); done.
Qed.

(** In particular an index [-1], as the shift of a one-based index [0]
    produces it, is accepted and addresses the last pixel,
    [12 * nside^2 - 1]. *)
Lemma full_sky_query_minus_one_fills_last_pixel
    self parameter coeff self1 basis self2 j f row v :
  return_beam_above_horizon (attrs self) = false →
  interp_coeff parameter self = (Ok coeff, self1) →
  cryo_basis_kl_to_beam self1 = (Ok basis, self2) →
  frequencies (attrs self) ≠ [] →
  array2_ok coeff = true →
  shape0 coeff = length (frequencies (attrs self)) →
  shape1 basis = shape1 coeff →
  length (rows basis) = length (unmasked_indices (attrs self)) →
  Forall (addressable (Z.to_nat (nside2npix (nside (attrs self)))))
    (unmasked_indices (attrs self)) →
  unmasked_indices (attrs self) !! j = Some (-1)%Z →
  (∀ j' i', j < j' → unmasked_indices (attrs self) !! j' = Some i' →
            i' ≠ (-1)%Z ∧ i' ≠ (nside2npix (nside (attrs self)) - 1)%Z) →
  rows coeff !! f = Some row →
  project basis row !! j = Some v →
  ∃ out beam,
    __call__ parameter self = (Ok (Array2d out), self2)
    ∧ rows out !! f = Some beam
    ∧ beam !! (Z.to_nat (nside2npix (nside (attrs self))) - 1) = Some v.
Proof.
  intros Hmode Hcoeff Hbasis Hfreqs Hok Hrows Hcols Hlen Hidx Hj Hlater
    Hrow Hv.
  destruct (full_sky_query_masks_and_fills _ _ _ _ _ _ Hmode Hcoeff Hbasis
              Hfreqs Hok Hrows Hcols Hlen Hidx)
    as (out & Hcall & _ & _ & Hout).
  destruct (Hout f row Hrow) as (beam & Hbeam & _ & _ & Hfill).
  exists out, beam. split; [done |]. split; [done |].
  set (npix := Z.to_nat (nside2npix (nside (attrs self)))) in *.
  assert (Hminus : addressable npix (-1))
    by (eapply (proj1 (Forall_lookup _ _) Hidx); done).
  assert (Hn : npix ≠ 0) by (unfold addressable in Hminus; lia).
  rewrite <- (position_minus_one npix Hn).
  apply (Hfill j (-1)%Z v Hj Hv).
  intros j' i' Hlt Hi'.
  destruct (Hlater j' i' Hlt Hi') as (Hne1 & Hne2).
  assert (Hi : addressable npix i')
    by (eapply (proj1 (Forall_lookup _ _) Hidx); done).
  rewrite (position_minus_one npix Hn).
  unfold addressable, position in *.
  assert (Hnpix : Z.of_nat npix = nside2npix (nside (attrs self))).
  { unfold npix. apply Z2Nat.id. unfold nside2npix. nia. }
  destruct (decide (i' < 0)%Z).
  - replace i' with ((i' + Z.of_nat npix) + (-1) * Z.of_nat npix)%Z by lia.
    rewrite Z.mod_add by lia. rewrite Z.mod_small by lia. lia.
  - rewrite Z.mod_small by lia. lia.
Qed.

End Properties.

(** * The properties on the demo inputs *)

Section Checks.
#[local] Existing Instance Zscalar.

(** C1. On the demo inputs (spline interpolation, full-sky mode, mask
    [1, 5, 10] in one-based ordering), the query of the freshly constructed
    emulator raises [AttributeError] where the specification asks for a
    [2 x 12] array. *)
Theorem full_sky_query_after_init_raises :
  ∃ self,
    demo_emulator true [1; 5; 10]%Z false None ∅ false true = Ok self
    ∧ (@__call__ _ (demo_env true) [2%Z] self).1 = Raise AttributeError.
Proof. eexists. split; reflexivity. Qed.

(** C10. On the demo inputs with the mask [0, 5, 10] in one-based ordering,
    construction stores the indices [-1, 4, 9] without error, and the
    full-sky query of the freshly constructed emulator raises
    [AttributeError] before any value is assigned to a pixel. *)
Theorem zero_index_query_after_init_raises :
  ∃ self,
    demo_emulator true [0; 5; 10]%Z false None ∅ false true = Ok self
    ∧ unmasked_indices (attrs self) = [-1; 4; 9]%Z
    ∧ (@__call__ _ (demo_env true) [2%Z] self).1 = Raise AttributeError.
Proof. eexists. split; [reflexivity |]. split; reflexivity. Qed.

(** With the projector installed through its setter, the same query
    succeeds, and the value projected for the index [-1] is in the last
    pixel of each map. *)
Lemma zero_index_query_with_projector :
  ∃ self self',
    demo_emulator true [0; 5; 10]%Z false None ∅ false true = Ok self
    ∧ @set_cryo_basis_kl_to_beam _ (demo_env true) demo_projector self
      = (Ok tt, self')
    ∧ (@__call__ _ (demo_env true) [2%Z] self').1
      = Ok (Array2d
              {| shape0 := 2; shape1 := 12;
                 rows := [[0; 0; 0; 0; 1; 0; 0; 0; 0; 0; 0; 3];
                          [0; 0; 0; 0; 3; 0; 0; 0; 0; 1; 0; 3]]%Z |}).
Proof. eexists _, _. split; [reflexivity |]. split; reflexivity. Qed.

(** C2, counterexample. With the projector installed, the
    horizon-restricted query on the demo inputs (two frequencies, three
    pixels) does not return an array of shape [2, 3]. *)
Lemma horizon_query_rows_are_pixels :
  ∃ self self',
    demo_emulator true [1; 5; 10]%Z false None ∅ true true = Ok self
    ∧ @set_cryo_basis_kl_to_beam _ (demo_env true) demo_projector self
      = (Ok tt, self')
    ∧ ¬ returns_shape (@__call__ _ (demo_env true) [2%Z] self').1
          (length (frequencies (attrs self')))
          (length (unmasked_indices (attrs self'))).
Proof.
  eexists _, _. split; [reflexivity |]. split; [reflexivity |].
  intros (a & Ha & H0 & H1). vm_compute in Ha.
  injection Ha as <-. discriminate H0.
Qed.

(** C3, counterexample. Configured for Gaussian-process regression with the
    default (empty) keyword dictionary, the query fails on the missing
    ['kernel'] key before the projector is read. *)
Lemma gpr_query_without_kernel_raises_KeyError :
  ∃ self,
    demo_emulator true [1; 5; 10]%Z true None ∅ false true = Ok self
    ∧ (@__call__ _ (demo_env true) [2%Z] self).1 = Raise KeyError
    ∧ (@__call__ _ (demo_env true) [2%Z] self).1 ≠ Raise AttributeError.
Proof.
  eexists. split; [reflexivity |]. split; [reflexivity | discriminate].
Qed.

(** C5, counterexample. A mask of two indices does not fit the demo basis
    of three pixels, and construction succeeds all the same. *)
Lemma init_accepts_mismatched_mask :
  spec_shapes_consistent demo_frequencies demo_basis demo_coefficients
    demo_grid [1; 5]%Z = false
  ∧ demo_emulator true [1; 5]%Z false None ∅ false true
    ≠ Raise DimensionMismatch.
Proof. split; [reflexivity | discriminate]. Qed.

(** C6, counterexample. With scikit-learn installed, the kernel name
    ['Linear'] makes the first query fail with [UnboundLocalError], not with
    [ConfigurationError]. *)
Lemma unknown_kernel_is_not_ConfigurationError :
  ∃ self,
    demo_emulator true [1; 5; 10]%Z true None
      (demo_kwargs "Linear" "MultiOutput") false true = Ok self
    ∧ (@__call__ _ (demo_env true) [2%Z] self).1 = Raise UnboundLocalError
    ∧ (@__call__ _ (demo_env true) [2%Z] self).1 ≠ Raise ConfigurationError.
Proof.
  eexists. split; [reflexivity |]. split; [reflexivity | discriminate].
Qed.

(** C7, counterexample. Without scikit-learn, requesting Gaussian-process
    regression does not fail at construction, and the first query fails with
    [NameError], not with [MissingDependency]. *)
Lemma missing_backend_is_not_MissingDependency :
  ∃ self,
    demo_emulator false [1; 5; 10]%Z true None
      (demo_kwargs "RBF" "MultiOutput") false true = Ok self
    ∧ (@__call__ _ (demo_env false) [2%Z] self).1 = Raise NameError
    ∧ (@__call__ _ (demo_env false) [2%Z] self).1 ≠ Raise MissingDependency.
Proof.
  eexists. split; [reflexivity |]. split; [reflexivity | discriminate].
Qed.

(** C8 on the mask [1, 5, 10]: the stored indices are [0, 4, 9]. *)
Lemma init_shifts_indices_by_one_witness :
  ∃ self,
    demo_emulator true [1; 5; 10]%Z false None ∅ false true = Ok self
    ∧ unmasked_indices (attrs self) = [0; 4; 9]%Z.
Proof.
  eexists. split; [reflexivity |].
  apply (@init_shifts_indices_by_one _ (demo_env true) demo_frequencies 1%Z
           demo_basis demo_coefficients demo_grid [1; 5; 10]%Z 1%Z false None
           ∅ false true).
  - repeat constructor; unfold int64_range; lia.
  - reflexivity.
Defined.

(** C3 on the demo inputs: spline interpolation, full-sky mode. *)
Lemma call_after_init_raises_AttributeError_witness :
  ∃ self self1,
    demo_emulator true [1; 5; 10]%Z false None ∅ false true = Ok self
    ∧ @__call__ _ (demo_env true) [2%Z] self = (Raise AttributeError, self1).
Proof.
  eexists _, _. split; [reflexivity |].
  eapply (@call_after_init_raises_AttributeError _ (demo_env true)
            demo_frequencies 1%Z demo_basis demo_coefficients demo_grid
            [1; 5; 10]%Z 1%Z false None ∅ false true).
  - reflexivity.
  - reflexivity.
  - right. discriminate.
Defined.

(** C2 on the demo inputs with the projector installed: three rows of two
    values. *)
Lemma horizon_query_returns_pixels_by_frequencies_witness :
  ∃ self self',
    demo_emulator true [1; 5; 10]%Z false None ∅ true true = Ok self
    ∧ @set_cryo_basis_kl_to_beam _ (demo_env true) demo_projector self
      = (Ok tt, self')
    ∧ ∃ a self2,
        @__call__ _ (demo_env true) [2%Z] self' = (Ok (Array2d a), self2)
        ∧ shape0 a = 3 ∧ shape1 a = 2.
Proof.
  eexists _, _. split; [reflexivity |]. split; [reflexivity |].
  match goal with
  | |- ∃ a self2, __call__ ?p ?s = _ ∧ _ =>
      edestruct (@horizon_query_returns_pixels_by_frequencies _
                   (demo_env true) s p)
        as (a & Hcall & H0 & H1 & _)
  end;
    [reflexivity | reflexivity | reflexivity | reflexivity | reflexivity |].
  exists a. eexists. split; [exact Hcall |]. split; [exact H0 | exact H1].
Defined.

(** C9 on the demo inputs with [cryo_basis] bound to the demo basis, whose
    projector has three coefficient columns. *)
Lemma full_order_matches_no_truncation_witness :
  ∃ self_L self_None d,
    demo_emulator true [1; 5; 10]%Z false (Some 3%Z) ∅ false true = Ok self_L
    ∧ demo_emulator true [1; 5; 10]%Z false None ∅ false true = Ok self_None
    ∧ cryo_basis d = Some demo_basis
    ∧ (@__call__ _ (demo_env true) [2%Z]
         {| attrs := attrs self_L; late := d |}).1
      = (@__call__ _ (demo_env true) [2%Z]
           {| attrs := attrs self_None; late := d |}).1.
Proof.
  eexists _, _,
    {| cryo_basis := Some demo_basis;
       _hyper_parameter_interpolater := None;
       _cryo_basis_kl_to_beam := None;
       _estimator_hyper_parameters := None;
       _estimator_log_marginal_likelihoods := None;
       _gpr_score_of_training_set := None;
       _spline_score_of_training_set := None |}.
  split; [reflexivity |]. split; [reflexivity |]. split; [reflexivity |].
  apply (@full_order_matches_no_truncation _ (demo_env true) demo_frequencies
           1%Z demo_basis demo_coefficients demo_grid [1; 5; 10]%Z 1%Z false
           ∅ false true 3%Z).
  - intros b [= <-]. reflexivity.
  - reflexivity.
  - reflexivity.
Defined.

(** C6 on the demo inputs: the kernel name ['Linear'], and the regressor
    name ['Stacking'] with the kernel ['RBF']. *)
Lemma gpr_unknown_name_raises_UnboundLocalError_witness :
  (∃ self,
     demo_emulator true [1; 5; 10]%Z true None
       (demo_kwargs "Linear" "MultiOutput") false true = Ok self
     ∧ (@__call__ _ (demo_env true) [2%Z] self).1 = Raise UnboundLocalError)
  ∧ (∃ self,
       demo_emulator true [1; 5; 10]%Z true None
         (demo_kwargs "RBF" "Stacking") false true = Ok self
       ∧ (@__call__ _ (demo_env true) [2%Z] self).1
         = Raise UnboundLocalError).
Proof.
  split.
  - edestruct (@gpr_unknown_name_raises_UnboundLocalError _ (demo_env true)
                 demo_frequencies 1%Z demo_basis demo_coefficients demo_grid
                 [1; 5; 10]%Z 1%Z None (demo_kwargs "Linear" "MultiOutput")
                 false true [2%Z])
      as (self & Hinit & Hkernel & _);
      [reflexivity | reflexivity | reflexivity |].
    exists self. split; [exact Hinit |]. apply Hkernel. reflexivity.
  - edestruct (@gpr_unknown_name_raises_UnboundLocalError _ (demo_env true)
                 demo_frequencies 1%Z demo_basis demo_coefficients demo_grid
                 [1; 5; 10]%Z 1%Z None (demo_kwargs "RBF" "Stacking")
                 false true [2%Z])
      as (self & Hinit & _ & Hregressor & _);
      [reflexivity | reflexivity | reflexivity |].
    exists self. split; [exact Hinit |].
    eapply Hregressor; reflexivity.
Defined.

(** C7 on the demo inputs without scikit-learn. The Gaussian-process query
    fails with [NameError]. The spline emulator with the default
    [gpr_kwargs={}] is fitted and queried when the handler lets the fit go
    on; with a handler that raises, its first read fails with [ImportError]
    and the query after it evaluates the spline. *)
Lemma missing_backend_raises_NameError_at_first_query_witness :
  (∃ self,
     demo_emulator false [1; 5; 10]%Z true None
       (demo_kwargs "RBF" "MultiOutput") false true = Ok self
     ∧ (@__call__ _ (demo_env false) [2%Z] self).1 = Raise NameError)
  ∧ (∃ self s,
       demo_emulator false [1; 5; 10]%Z false None ∅ false true = Ok self
       ∧ (@hyper_parameter_interpolater _ (demo_env false) self).1
         = Ok (Spline s)
       ∧ (@interp_coeff _ (demo_env false) [2%Z] self).1
         = Ok (node_slice demo_coefficients 1))
  ∧ (∃ self self',
       @__init__ _ strict_env demo_frequencies 1%Z demo_basis
         demo_coefficients demo_grid [1; 5; 10]%Z 1%Z false None ∅ false true
       = Ok self
       ∧ @hyper_parameter_interpolater _ strict_env self
         = (Raise ImportError, self')
       ∧ @interp_coeff _ strict_env [2%Z] self'
         = (Ok (node_slice demo_coefficients 1), self')).
Proof.
  split; [| split].
  - edestruct (@missing_backend_raises_NameError_at_first_query _
                 (demo_env false) demo_frequencies 1%Z demo_basis
                 demo_coefficients demo_grid [1; 5; 10]%Z 1%Z None
                 (demo_kwargs "RBF" "MultiOutput") false true [2%Z])
      as (Hgpr & _); [reflexivity | reflexivity | reflexivity |].
    exact Hgpr.
  - edestruct (@missing_backend_raises_NameError_at_first_query _
                 (demo_env false) demo_frequencies 1%Z demo_basis
                 demo_coefficients demo_grid [1; 5; 10]%Z 1%Z None
                 (demo_kwargs "RBF" "MultiOutput") false true [2%Z])
      as (_ & Hspline); [reflexivity | reflexivity | reflexivity |].
    edestruct (Hspline ∅) as (self & self' & Hinit & Hread & Hfirst & _);
      [reflexivity | reflexivity | reflexivity |].
    exists self. eexists. split; [exact Hinit |]. split.
    + rewrite Hread. reflexivity.
    + exact (Hfirst eq_refl 2%Z []).
  - edestruct (@missing_backend_raises_NameError_at_first_query _
                 strict_env demo_frequencies 1%Z demo_basis
                 demo_coefficients demo_grid [1; 5; 10]%Z 1%Z None
                 (demo_kwargs "RBF" "MultiOutput") false true [2%Z])
      as (_ & Hspline); [reflexivity | reflexivity | reflexivity |].
    edestruct (Hspline ∅) as (self & self' & Hinit & Hread & _ & Hlater);
      [reflexivity | reflexivity | reflexivity |].
    exists self, self'. split; [exact Hinit |]. split.
    + exact Hread.
    + exact (Hlater 2%Z []).
Defined.

(** C4 on the demo inputs, whose step interpolant is exact at the three grid
    nodes: the first query at a grid node returns the slice stored for it,
    for the node [2] the second slice of the coefficients. *)
Lemma spline_query_reproduces_training_nodes_witness :
  ∃ self,
    demo_emulator true [1; 5; 10]%Z false None ∅ false true = Ok self
    ∧ (∀ i h,
         demo_grid !! i = Some h →
         (@interp_coeff _ (demo_env true) [h] self).1
         = Ok (node_slice demo_coefficients i))
    ∧ (@interp_coeff _ (demo_env true) [2%Z] self).1
      = Ok {| shape0 := 2; shape1 := 3;
              rows := [[2; 1; 0]; [0; 2; 1]]%Z |}.
Proof.
  edestruct (@spline_query_reproduces_training_nodes _ (demo_env true) eq
               demo_frequencies 1%Z demo_basis demo_coefficients demo_grid
               [1; 5; 10]%Z 1%Z None ∅ false true)
    as (self & Hinit & Hfirst & _).
  - reflexivity.
  - reflexivity.
  - intros [| [| [| i]]] h Hi; simpl in Hi; [| | | discriminate];
      injection Hi as <-; eexists; split; reflexivity.
  - exists self. split; [exact Hinit |].
    assert (Hall : ∀ i h,
               demo_grid !! i = Some h →
               (@interp_coeff _ (demo_env true) [h] self).1
               = Ok (node_slice demo_coefficients i)).
    { injection Hinit as <-. intros i h Hi.
      destruct (Hfirst _ i h [] eq_refl Hi) as (v & Hv & ->). exact Hv. }
    split; [exact Hall |]. exact (Hall 1 2%Z eq_refl).
Defined.

End Checks.

(** * Further properties of the emulator *)

Section Further.
Context `{Environment}.

(** ** Taking a run apart *)

Lemma bind_ok_inv {A B} (m : M A) (k : A → M B) self b self' :
  bind m k self = (Ok b, self') →
  ∃ a self1, m self = (Ok a, self1) ∧ k a self1 = (Ok b, self').
Proof.
  unfold bind. destruct (m self) as [[a | e] self1]; [| done].
  intros Hk. by exists a, self1.
Qed.

Lemma bind_raise_inv {A B} (m : M A) (k : A → M B) self e self' :
  bind m k self = (Raise e, self') →
  m self = (Raise e, self')
  ∨ ∃ a self1, m self = (Ok a, self1) ∧ k a self1 = (Raise e, self').
Proof.
  unfold bind. destruct (m self) as [[a | e'] self1].
  - intros Hk. right. by exists a, self1.
  - intros [= -> ->]. by left.
Qed.

Lemma bound_attr_ok_inv {A} (f : BeamEmulator → option A) self a self' :
  bound_attr f self = (Ok a, self') → f self = Some a ∧ self' = self.
Proof.
  unfold bound_attr. destruct (f self); [| done]. by intros [= -> ->].
Qed.

Lemma attr_inv {A} (f : attributes → A) self r self' :
  attr f self = (r, self') → r = Ok (f (attrs self)) ∧ self' = self.
Proof. by intros [= <- <-]. Qed.

Lemma lift_inv {A} (r : result A) self r' self' :
  lift r self = (r', self') → r' = r ∧ self' = self.
Proof. by intros [= <- <-]. Qed.

(** ** Frames *)

Section Frame.
Context {X : Type} (proj : BeamEmulator → X).

Lemma frame_ret {A} (a : A) : frame proj (ret a).
Proof. by intros self. Qed.

Lemma frame_lift {A} (r : result A) : frame proj (lift r).
Proof. by intros self. Qed.

Lemma frame_attr {A} (f : attributes → A) : frame proj (attr f).
Proof. by intros self. Qed.

Lemma frame_bound_attr {A} (f : BeamEmulator → option A) :
  frame proj (bound_attr f).
Proof. intros self. unfold bound_attr. by destruct (f self). Qed.

Lemma frame_bind {A B} (m : M A) (k : A → M B) :
  frame proj m → (∀ a, frame proj (k a)) → frame proj (bind m k).
Proof.
  intros Hm Hk self. unfold bind. specialize (Hm self).
  destruct (m self) as [[a | e] self']; simpl in *; [| done].
  by rewrite Hk.
Qed.

Lemma frame_set_late (g : derived → derived) :
  (∀ self, proj {| attrs := attrs self; late := g (late self) |}
           = proj self) →
  frame proj (set_late g).
Proof. intros Hg self. apply Hg. Qed.

End Frame.

Ltac frame_step :=
  first
    [ apply frame_ret
    | apply frame_lift
    | apply frame_attr
    | apply frame_bound_attr
    | apply frame_set_late; reflexivity
    | match goal with
      | |- frame _ (if ?b then _ else _) => destruct b
      | |- frame _ (match ?x with _ => _ end) => destruct x
      end
    | apply frame_bind; [| intros ?] ].

Ltac unfold_setters :=
  unfold hyper_parameter_array, interpolation_order,
    set_hyper_parameter_interpolater, set_cryo_basis_kl_to_beam,
    set_estimator_hyper_parameters, set_estimator_log_marginal_likelihoods,
    set_gpr_score_of_training_set, set_spline_score_of_training_set.

Lemma frame_try_score_spline {X} (proj : BeamEmulator → X) c d :
  (∀ self v,
     proj (set_spline_score_of_training_set v self).2 = proj self) →
  frame proj (try_score_spline c d).
Proof.
  intros Hset.
  assert (Hs : frame proj (score_spline c d)).
  { unfold score_spline. repeat (apply frame_bind; [| intros ?]);
      try apply frame_lift. intros self. apply Hset. }
  intros self. unfold try_score_spline. specialize (Hs self).
  by destruct (score_spline c d self) as [[[] | e] self'].
Qed.

(** ** Reading the interpolater *)

Lemma hyper_parameter_interpolater_bound self itp self' :
  hyper_parameter_interpolater self = (Ok itp, self') →
  _hyper_parameter_interpolater (late self') = Some itp.
Proof.
  unfold hyper_parameter_interpolater.
  destruct (_hyper_parameter_interpolater (late self)) eqn:E.
  - intros Hread. by apply bound_attr_ok_inv in Hread as [? ->].
  - unfold fit_interpolater. intros Hfit.
    repeat (apply bind_ok_inv in Hfit as (? & ? & _ & Hfit)).
    by apply bound_attr_ok_inv in Hfit as [? ->].
Qed.

(** X1. The interpolater is fitted at most once: after a read of the
    property that returned an interpolater, every later read returns the
    same interpolater and leaves the instance as it is. *)
Theorem hyper_parameter_interpolater_read_twice self itp self' :
  hyper_parameter_interpolater self = (Ok itp, self') →
  hyper_parameter_interpolater self' = (Ok itp, self').
Proof.
  intros Hread. apply hyper_parameter_interpolater_bound in Hread.
  unfold hyper_parameter_interpolater, bound_attr. by rewrite Hread.
Qed.

(** X2. In spline mode the spline is put on the instance before it is
    checked on the training grid: when the fit succeeds and the evaluation
    at the grid nodes raises, the first read of the property raises that
    exception and the second read returns the spline. *)
Theorem spline_kept_after_failed_check self x k reshaped s e :
  use_gpr (attrs self) = false →
  _hyper_parameter_interpolater (late self) = None →
  _hyper_parameter_array (attrs self) = Some x →
  _interpolation_order (attrs self) = Some k →
  reshape_tensor (length x) (cryo_coefficients (attrs self)) = Ok reshaped →
  make_interp_spline x (cryo_coefficients (attrs self)) k = Ok s →
  spline_at_nodes s x = Raise e →
  ∃ self1,
    hyper_parameter_interpolater self = (Raise e, self1)
    ∧ hyper_parameter_interpolater self1 = (Ok (Spline s), self1).
Proof.
  intros Hgpr Hnone Hx Hk Hshape Hfit Hnodes.
  exists (set_hyper_parameter_interpolater (Spline s) self).2. split.
  - unfold hyper_parameter_interpolater. rewrite Hnone.
    unfold fit_interpolater, fit_spline, hyper_parameter_array,
      interpolation_order, bind, attr, bound_attr, lift. simpl.
    repeat (progress (rewrite ?Hx, ?Hshape, ?Hgpr, ?Hk, ?Hfit, ?Hnodes;
                      simpl)).
    reflexivity.
  - reflexivity.
Qed.

(** When the first part of a run keeps [proj] and the rest keeps it
    whenever it raises, a run that raises has kept it. *)
Lemma bind_raise_frame {A B X} (proj : BeamEmulator → X)
    (m : M A) (k : A → M B) :
  frame proj m →
  (∀ a self e self', k a self = (Raise e, self') → proj self' = proj self) →
  ∀ self e self',
    bind m k self = (Raise e, self') → proj self' = proj self.
Proof.
  intros Hm Hk self e self' Hrun. specialize (Hm self).
  apply bind_raise_inv in Hrun as [Hrun | (a & self1 & Hrun & Hrest)];
    rewrite Hrun in Hm; simpl in Hm; [done |].
  rewrite <- Hm. by apply (Hk a self1 e self').
Qed.

(** A Gaussian-process fit that raises has not put an interpolater on the
    instance: the assignment is its last statement. *)
Lemma fit_gpr_raise_unbound c self e self' :
  fit_gpr c self = (Raise e, self') →
  _hyper_parameter_interpolater (late self')
  = _hyper_parameter_interpolater (late self).
Proof.
  set (proj := fun self : BeamEmulator =>
                 _hyper_parameter_interpolater (late self)).
  assert (Hsel : ∀ est, frame proj (select_regressor est c)).
  { intros est. unfold select_regressor. unfold_setters.
    repeat frame_step. }
  assert (Hall : ∀ self e self',
            fit_gpr c self = (Raise e, self') → proj self' = proj self).
  { unfold fit_gpr.
    repeat (apply bind_raise_frame;
            [unfold_setters; first [apply Hsel | repeat frame_step] |];
            intros ?; cbv beta).
    discriminate. }
  apply Hall.
Qed.

(** X3. In Gaussian-process mode nothing is put on the instance before the
    fit is complete: when the first read of the property raises, the
    interpolater is still unbound, so the next read fits again. *)
Theorem gpr_not_kept_after_failed_fit self e self' :
  use_gpr (attrs self) = true →
  _hyper_parameter_interpolater (late self) = None →
  hyper_parameter_interpolater self = (Raise e, self') →
  _hyper_parameter_interpolater (late self') = None
  ∧ hyper_parameter_interpolater self' = fit_interpolater self'.
Proof.
  intros Hgpr Hnone Hread.
  assert (Hstill : _hyper_parameter_interpolater (late self') = None).
  { unfold hyper_parameter_interpolater in Hread. rewrite Hnone in Hread.
    unfold fit_interpolater in Hread.
    apply bind_raise_inv in Hread as [[=] | (y & s1 & [= <- <-] & Hread)].
    apply bind_raise_inv in Hread as [Hx | (x & s2 & Hx & Hread)];
      unfold hyper_parameter_array in Hx.
    { unfold bound_attr in Hx.
      destruct (_hyper_parameter_array (attrs self)); [done |].
      by injection Hx as <- <-. }
    apply bound_attr_ok_inv in Hx as [_ ->].
    apply bind_raise_inv in Hread as [Hr | (rc & s3 & Hr & Hread)].
    { by apply lift_inv in Hr as [_ ->]. }
    apply lift_inv in Hr as [_ ->].
    apply bind_raise_inv in Hread as [[=] | (g & s4 & [= <- <-] & Hread)].
    rewrite Hgpr in Hread.
    apply bind_raise_inv in Hread as [Hfit | (u & s5 & Hfit & Hread)].
    - apply fit_gpr_raise_unbound in Hfit. congruence.
    - unfold bound_attr in Hread.
      destruct (_hyper_parameter_interpolater (late s5)) eqn:E; [done |].
      by injection Hread as <- <-. }
  split; [done |].
  unfold hyper_parameter_interpolater. by rewrite Hstill.
Qed.

(** X4. The fit starts by reshaping the coefficients to one row per grid
    node: when the grid is empty, or the number of coefficients is not a
    multiple of the number of grid nodes, the first read of the property
    raises [ValueError] in both modes, before any library is called, and
    changes nothing on the instance. *)
Theorem fit_rejects_ragged_coefficients self x :
  _hyper_parameter_interpolater (late self) = None →
  _hyper_parameter_array (attrs self) = Some x →
  length x = 0 ∨ tensor_size (cryo_coefficients (attrs self)) mod length x ≠ 0 →
  hyper_parameter_interpolater self = (Raise ValueError, self).
Proof.
  intros Hnone Hx Hragged.
  unfold hyper_parameter_interpolater. rewrite Hnone.
  unfold fit_interpolater, hyper_parameter_array, bind, attr, bound_attr,
    lift. simpl. rewrite Hx.
  unfold reshape_tensor, reshape_rows.
  destruct Hragged as [Hempty | Hmod].
  - by rewrite decide_True.
  - destruct (decide (length x = 0)); [done |]. by rewrite decide_False.
Qed.

(** X5. Gaussian-process mode needs the ['kernel'] entry whether or not
    scikit-learn is installed: without it, as with the default
    [gpr_kwargs={}], the first query raises [KeyError] once the coefficients
    are reshaped, and changes nothing on the instance. *)
Theorem gpr_query_needs_kernel_entry self x reshaped parameter :
  use_gpr (attrs self) = true →
  _hyper_parameter_interpolater (late self) = None →
  _hyper_parameter_array (attrs self) = Some x →
  reshape_tensor (length x) (cryo_coefficients (attrs self)) = Ok reshaped →
  gpr_kwargs (attrs self) !! "kernel" = None →
  __call__ parameter self = (Raise KeyError, self).
Proof.
  intros Hgpr Hnone Hx Hshape Hkernel.
  unfold __call__, interp_coeff, hyper_parameter_interpolater,
    fit_interpolater, fit_gpr, hyper_parameter_array, bind, attr,
    bound_attr, lift, getitem. simpl.
  by rewrite Hgpr, Hnone, Hx, Hshape, Hgpr, Hkernel.
Qed.

(** ** The diagnostics of the fit *)

(** X6. A completed Gaussian-process fit leaves its diagnostics on the
    instance: the interpolater is the fitted regressor, the two diagnostic
    lists hold the kernel parameters and the log marginal likelihood of each
    of its estimators, in the order of the estimators, and the score
    property is bound. *)
Theorem gpr_fit_records_every_estimator self itp self' :
  use_gpr (attrs self) = true →
  _hyper_parameter_interpolater (late self) = None →
  hyper_parameter_interpolater self = (Ok itp, self') →
  ∃ regr s,
    itp = Regr regr
    ∧ estimator_hyper_parameters self'
      = (Ok (map fst (estimators_ regr)), self')
    ∧ estimator_log_marginal_likelihoods self'
      = (Ok (map snd (estimators_ regr)), self')
    ∧ gpr_score_of_training_set self' = (Ok s, self').
Proof.
  intros Hgpr Hnone Hread.
  unfold hyper_parameter_interpolater in Hread. rewrite Hnone in Hread.
  unfold fit_interpolater, fit_gpr, select_regressor, hyper_parameter_array,
    set_hyper_parameter_interpolater, set_estimator_hyper_parameters,
    set_estimator_log_marginal_likelihoods, set_gpr_score_of_training_set,
    set_late, bind, attr, bound_attr, lift, ret in Hread.
  simpl in Hread.
  repeat (case_match; simplify_eq); simpl in *; simplify_eq.
  all: try congruence.
  all: eexists _, _; split; [reflexivity |]; split; [reflexivity |];
    split; reflexivity.
Qed.

Lemma fit_gpr_frame_spline_score c :
  frame (fun self => _spline_score_of_training_set (late self)) (fit_gpr c).
Proof.
  unfold fit_gpr, select_regressor. unfold_setters. repeat frame_step.
Qed.

Lemma fit_spline_frame_gpr_diagnostics c :
  frame (fun self =>
           (_estimator_hyper_parameters (late self),
            _estimator_log_marginal_likelihoods (late self),
            _gpr_score_of_training_set (late self)))
    (fit_spline c).
Proof.
  unfold fit_spline. unfold_setters.
  repeat (first [ apply frame_try_score_spline; reflexivity | frame_step ]).
Qed.

(** X7. Each mode records only its own diagnostics: a read of the
    interpolater in Gaussian-process mode never rebinds the spline score,
    and a read in spline mode never rebinds the kernel parameters, the log
    marginal likelihoods or the Gaussian-process score, whether the read
    returns or raises. *)
Theorem fit_records_own_diagnostics_only self :
  if use_gpr (attrs self) then
    _spline_score_of_training_set
      (late (hyper_parameter_interpolater self).2)
    = _spline_score_of_training_set (late self)
  else
    _estimator_hyper_parameters (late (hyper_parameter_interpolater self).2)
    = _estimator_hyper_parameters (late self)
    ∧ _estimator_log_marginal_likelihoods
        (late (hyper_parameter_interpolater self).2)
      = _estimator_log_marginal_likelihoods (late self)
    ∧ _gpr_score_of_training_set
        (late (hyper_parameter_interpolater self).2)
      = _gpr_score_of_training_set (late self).
Proof.
  assert (Hfit : ∀ {X} (proj : BeamEmulator → X) (g : bool),
    use_gpr (attrs self) = g →
    (∀ c, frame proj (if g then fit_gpr c else fit_spline c)) →
    proj (hyper_parameter_interpolater self).2 = proj self).
  { intros X proj g Hg Hbranch. unfold hyper_parameter_interpolater.
    destruct (_hyper_parameter_interpolater (late self)).
    { apply frame_bound_attr. }
    unfold fit_interpolater, bind at 1, attr at 1.
    unfold bind at 1, hyper_parameter_array, bound_attr at 1.
    destruct (_hyper_parameter_array (attrs self)); [| done].
    unfold bind at 1, lift at 1.
    destruct (reshape_tensor _ _) as [c |]; [| done].
    unfold bind at 1, attr at 1. rewrite Hg.
    apply (frame_bind proj); [apply Hbranch | intros ?; apply frame_bound_attr]. }
  destruct (use_gpr (attrs self)) eqn:Hgpr.
  - apply (Hfit _ (fun self => _spline_score_of_training_set (late self))
             true eq_refl).
    apply fit_gpr_frame_spline_score.
  - pose proof (Hfit _ _ false eq_refl fit_spline_frame_gpr_diagnostics)
      as Heq.
    by injection Heq as -> -> ->.
Qed.

(** ** What a query leaves on the instance *)

Lemma frame_attrs_cryo_basis_kl_to_beam : frame attrs cryo_basis_kl_to_beam.
Proof.
  intros self. unfold cryo_basis_kl_to_beam.
  destruct (_cryo_basis_kl_to_beam (late self)).
  - apply frame_bound_attr.
  - unfold compute_cryo_basis_kl_to_beam. unfold_setters.
    revert self. change (frame attrs ?m) with (frame attrs m).
    repeat frame_step.
Qed.

Lemma frame_attrs_full_sky freqs ifreq coeff :
  frame attrs (full_sky freqs ifreq coeff).
Proof.
  revert ifreq. induction freqs as [| f freqs IH]; intros ifreq; simpl.
  - apply frame_ret.
  - repeat (first [ apply frame_attrs_cryo_basis_kl_to_beam | apply IH
                  | frame_step ]).
Qed.

Lemma frame_attrs_call p : frame attrs (__call__ p).
Proof.
  unfold __call__.
  apply frame_bind.
  { intros self. apply keeps_interp_coeff. }
  intros coeff.
  repeat (first [ apply frame_attrs_cryo_basis_kl_to_beam
                | apply frame_attrs_full_sky | frame_step ]).
Qed.

Lemma after_queries_attrs ps self :
  attrs (after_queries ps self) = attrs self.
Proof.
  revert self. induction ps as [| p ps IH]; intros self; [done |].
  simpl. rewrite IH. apply frame_attrs_call.
Qed.

(** X8. Queries never rebind an attribute set by [__init__]: after any
    sequence of queries, whatever each returned or raised, the frequencies,
    the grid, the coefficients, the pixel indices (shifted once, at
    construction), the truncation order and the mode flags are those the
    instance had before. *)
Theorem queries_keep_init_attributes ps self :
  attrs (after_queries ps self) = attrs self.
Proof.
  revert self. induction ps as [| p ps IH]; intros self.
  - reflexivity.
  - change (after_queries (p :: ps) self)
      with (after_queries ps (__call__ p self).2).
    rewrite IH. apply frame_attrs_call.
Qed.

(** Without a projector the query leaves the instance as its interpolation
    step left it. *)
Lemma call_projectorless_state p self :
  projectorless self →
  (__call__ p self).2 = (interp_coeff p self).2.
Proof.
  intros [Hb Hp].
  destruct (keeps_interp_coeff p self) as (Ha & Hb' & Hp').
  unfold __call__, bind at 1.
  destruct (interp_coeff p self) as [[coeff | e] self1]; [| done].
  simpl in *. rewrite Hb in Hb'. rewrite Hp in Hp'.
  unfold bind at 1, attr at 1.
  destruct (return_beam_above_horizon (attrs self1)).
  - by rewrite (bind_raise _ _ _ _ _
                  (cryo_basis_kl_to_beam_unbound _ Hp' Hb')).
  - unfold bind at 1, attr at 1.
    destruct (frequencies (attrs self1)) as [| f fs]; [done |].
    unfold bind at 1. simpl. unfold bind at 1, attr at 1.
    by rewrite (bind_raise _ _ _ _ _
                  (cryo_basis_kl_to_beam_unbound _ Hp' Hb')).
Qed.

Lemma after_queries_projectorless ps self :
  projectorless self → projectorless (after_queries ps self).
Proof.
  revert self. induction ps as [| p ps IH]; intros self Hself; [done |].
  simpl. apply IH. rewrite call_projectorless_state by done.
  destruct Hself as [Hb Hp].
  destruct (keeps_interp_coeff p self) as (_ & Hb' & Hp').
  split; congruence.
Qed.

(** X9. Retrying does not help: on an emulator built by [__init__], after
    any sequence of earlier queries, a query whose interpolation step
    completes still raises [AttributeError] (in horizon-restricted mode, and
    in full-sky mode with at least one frequency), because no query binds
    [cryo_basis] or the projector. *)
Theorem query_raises_after_any_queries
    (freqs : list R) (nside : Z) (basis : array2) (coefficients : tensor3)
    (grid : list R) (mask : list Z) (order : Z) (gpr : bool)
    (coefficient_order : option Z) (kwargs : gmap string pyval)
    (horizon julia : bool) self ps parameter coeff self1 :
  __init__ freqs nside basis coefficients grid mask order gpr
    coefficient_order kwargs horizon julia = Ok self →
  interp_coeff parameter (after_queries ps self) = (Ok coeff, self1) →
  horizon = true ∨ freqs ≠ [] →
  __call__ parameter (after_queries ps self) = (Raise AttributeError, self1).
Proof.
  intros [= <-] Hcoeff Hmode.
  match goal with
  | |- __call__ _ (after_queries _ ?s) = _ =>
      pose proof (after_queries_projectorless ps s (conj eq_refl eq_refl))
        as [Hb Hp];
      pose proof (after_queries_attrs ps s) as Ha
  end.
  apply (call_unbound_projector _ _ coeff); try done.
  by rewrite Ha.
Qed.

(** ** [coefficient_predicter] *)

(** X10. [coefficient_predicter] only reads: it never changes the
    instance, whatever it returns or raises, and in particular never fits;
    while no interpolater is on the instance, as after [__init__], it raises
    [AttributeError] in both modes, whatever the inputs. *)
Theorem coefficient_predicter_only_reads inputs self :
  (coefficient_predicter inputs self).2 = self
  ∧ (_hyper_parameter_interpolater (late self) = None →
     (coefficient_predicter inputs self).1 = Raise AttributeError).
Proof.
  split.
  - assert (Hframe : frame (fun self => self) (coefficient_predicter inputs))
      by (unfold coefficient_predicter; repeat frame_step).
    apply Hframe.
  - intros Hnone. unfold coefficient_predicter, bind, attr, bound_attr.
    by rewrite Hnone.
Qed.

(** X11. In Gaussian-process mode, once the regressor is on the instance,
    [coefficient_predicter] returns its prediction for the inputs without
    changing the instance, and the interpolation step of a query is that
    prediction for the one-by-one input holding [parameter[0]], reshaped to
    one row per frequency. *)
Theorem gpr_query_predicts_like_coefficient_predicter
    self regr self' inputs p ps :
  use_gpr (attrs self) = true →
  hyper_parameter_interpolater self = (Ok (Regr regr), self') →
  coefficient_predicter inputs self'
  = (c <~ predict regr inputs ;;; Ok (Predicted2 c), self')
  ∧ interp_coeff (p :: ps) self'
    = (c <~ predict regr {| shape0 := 1; shape1 := 1; rows := [[p]] |} ;;;
       reshape_array (length (frequencies (attrs self))) c,
       self').
Proof.
  intros Hgpr Hread.
  destruct (keeps_hyper_parameter_interpolater self) as (Ha & _ & _).
  rewrite Hread in Ha. simpl in Ha.
  apply hyper_parameter_interpolater_bound in Hread.
  assert (Hagain : hyper_parameter_interpolater self'
                   = (Ok (Regr regr), self'))
    by (unfold hyper_parameter_interpolater, bound_attr; by rewrite Hread).
  split.
  - unfold coefficient_predicter, bind, attr, bound_attr, lift, ret.
    rewrite Ha, Hgpr, Hread. by destruct (predict regr inputs).
  - unfold interp_coeff, bind at 1, attr at 1. rewrite Ha, Hgpr.
    rewrite (bind_ok _ _ _ _ _ Hagain).
    unfold bind, attr, lift, first. rewrite Ha.
    by destruct (predict regr _).
Qed.

Lemma chunks_length c n l : length (chunks c n l) = n.
Proof.
  revert l. induction n as [| n IH]; intros l; simpl; [done |].
  by rewrite IH.
Qed.

Lemma reshape_rows_ok n size l a :
  reshape_rows n size l = Ok a →
  n ≠ 0 ∧ shape0 a = n ∧ length (rows a) = n.
Proof.
  unfold reshape_rows. repeat case_decide; try done.
  intros [= <-]. simpl. by rewrite chunks_length.
Qed.

(** X12. In Gaussian-process mode the predicted coefficients always come
    back as one row per frequency: whenever the interpolation step of a
    query returns, its array has exactly [len(frequencies)] rows, and there
    is at least one frequency (with none, the reshape raises). *)
Theorem gpr_coefficients_have_one_row_per_frequency
    self parameter coeff self1 :
  use_gpr (attrs self) = true →
  interp_coeff parameter self = (Ok coeff, self1) →
  shape0 coeff = length (frequencies (attrs self))
  ∧ length (rows coeff) = length (frequencies (attrs self))
  ∧ frequencies (attrs self) ≠ [].
Proof.
  intros Hgpr Hcoeff. unfold interp_coeff in Hcoeff.
  apply bind_ok_inv in Hcoeff as (g & s0 & [= <- <-] & Hcoeff).
  rewrite Hgpr in Hcoeff.
  apply bind_ok_inv in Hcoeff as (itp & s1 & Hread & Hcoeff).
  destruct (keeps_hyper_parameter_interpolater self) as (Ha & _ & _).
  rewrite Hread in Ha. simpl in Ha.
  destruct itp as [s | r]; [done |].
  apply bind_ok_inv in Hcoeff as (p & s2 & [_ ->]%lift_inv & Hcoeff).
  apply bind_ok_inv in Hcoeff as (c & s3 & [_ ->]%lift_inv & Hcoeff).
  apply bind_ok_inv in Hcoeff as (f & s4 & [= <- <-] & Hcoeff).
  apply lift_inv in Hcoeff as [Hshape _]. rewrite Ha in Hshape.
  symmetry in Hshape. apply reshape_rows_ok in Hshape as (Hn & Hs0 & Hrows).
  repeat split; try done.
  intros Hnil. by rewrite Hnil in Hn.
Qed.

(** ** The projector *)

Lemma slice_stop_le n stop : slice_stop n stop ≤ n.
Proof. unfold slice_stop. repeat case_match; lia. Qed.

Lemma slice_cols_transpose b stop :
  slice_cols (transpose b) stop
  = first_columns b (slice_stop (shape0 b) stop).
Proof.
  unfold slice_cols, transpose, first_columns. simpl. f_equal.
  rewrite List.map_map. apply List.map_ext. intros i.
  rewrite firstn_map, take_seq. do 2 f_equal.
  pose proof (slice_stop_le (shape0 b) stop). lia.
Qed.

(** The first read of the projector when [cryo_basis] is bound. *)
Lemma cryo_basis_kl_to_beam_computed self b :
  _cryo_basis_kl_to_beam (late self) = None →
  cryo_basis (late self) = Some b →
  cryo_basis_kl_to_beam self
  = (Ok (first_columns b
           (slice_stop (shape0 b) (coefficient_order (attrs self)))),
     (set_cryo_basis_kl_to_beam
        (first_columns b
           (slice_stop (shape0 b) (coefficient_order (attrs self))))
        self).2).
Proof.
  intros Hnone Hb. unfold cryo_basis_kl_to_beam. rewrite Hnone.
  rewrite <- slice_cols_transpose.
  unfold compute_cryo_basis_kl_to_beam, set_cryo_basis_kl_to_beam, set_late,
    bind, bound_attr, attr. simpl.
  rewrite Hb. simpl. by rewrite ?Hb.
Qed.

(** X13. Truncation keeps the leading coefficients: with [cryo_basis] bound
    to an array of [L] rows and [coefficient_order = K], [0 <= K <= L], the
    first read of the projector returns the transposed basis restricted to
    its first [K] columns (entry [i, j] is entry [j, i] of the basis, for
    [j < K]) and puts it on the instance. *)
Theorem projector_keeps_first_coefficients self b K :
  _cryo_basis_kl_to_beam (late self) = None →
  cryo_basis (late self) = Some b →
  coefficient_order (attrs self) = Some K →
  (0 <= K <= Z.of_nat (shape0 b))%Z →
  ∃ self',
    cryo_basis_kl_to_beam self = (Ok (first_columns b (Z.to_nat K)), self')
    ∧ _cryo_basis_kl_to_beam (late self')
      = Some (first_columns b (Z.to_nat K)).
Proof.
  intros Hnone Hb HK Hrange. eexists.
  rewrite (cryo_basis_kl_to_beam_computed _ _ Hnone Hb), HK.
  replace (slice_stop (shape0 b) (Some K)) with (Z.to_nat K).
  - split; reflexivity.
  - unfold slice_stop. rewrite (proj2 (Z.ltb_ge K 0)) by lia.
    f_equal. lia.
Qed.

(** X14. A truncation order outside [0, L] is accepted without error:
    an order of [L] or more gives the untruncated projector, and a negative
    order [K] counts from the end, as a Python slice does: it drops the last
    [-K] coefficients, all of them when [-K >= L]. *)
Theorem projector_order_out_of_range self b K :
  _cryo_basis_kl_to_beam (late self) = None →
  cryo_basis (late self) = Some b →
  coefficient_order (attrs self) = Some K →
  (K < 0 ∨ Z.of_nat (shape0 b) <= K)%Z →
  (cryo_basis_kl_to_beam self).1
  = Ok (first_columns b
          (if (K <? 0)%Z then Z.to_nat (Z.of_nat (shape0 b) + K)
           else shape0 b)).
Proof.
  intros Hnone Hb HK Hrange.
  rewrite (cryo_basis_kl_to_beam_computed _ _ Hnone Hb), HK. simpl.
  do 2 f_equal. unfold slice_stop. destruct (K <? 0)%Z eqn:E; lia.
Qed.

(** X15. The projector is computed once and never invalidated: after a read
    that returned a projector, every later read returns the same projector,
    also when [coefficient_order] has been reassigned in between. *)
Theorem projector_ignores_later_order self basis self' k :
  cryo_basis_kl_to_beam self = (Ok basis, self') →
  cryo_basis_kl_to_beam (set_coefficient_order k self')
  = (Ok basis, set_coefficient_order k self').
Proof.
  intros Hread. apply cryo_basis_kl_to_beam_ok in Hread as [Hbound _].
  by apply cryo_basis_kl_to_beam_bound.
Qed.

(** X16. Truncation is applied to the projector only: with [cryo_basis]
    bound to an array of [L] rows and [coefficient_order = K], [0 <= K < L],
    a query whose interpolation step yields [L] coefficients per frequency
    raises [ValueError] at the matrix product, in horizon-restricted mode
    and, with one coefficient row per frequency and at least one frequency,
    in full-sky mode. *)
Theorem truncated_projector_rejects_full_coefficients
    self b K parameter coeff self1 :
  _cryo_basis_kl_to_beam (late self) = None →
  cryo_basis (late self) = Some b →
  coefficient_order (attrs self) = Some K →
  (0 <= K < Z.of_nat (shape0 b))%Z →
  interp_coeff parameter self = (Ok coeff, self1) →
  array2_ok coeff = true →
  shape1 coeff = shape0 b →
  shape0 coeff = length (frequencies (attrs self)) →
  return_beam_above_horizon (attrs self) = true
  ∨ frequencies (attrs self) ≠ [] →
  (__call__ parameter self).1 = Raise ValueError.
Proof.
  intros Hnone Hb HK Hrange Hcoeff Hok Hcols Hrows Hmode.
  destruct (keeps_interp_coeff parameter self) as (Ha & Hb' & Hp').
  rewrite Hcoeff in Ha, Hb', Hp'. simpl in Ha, Hb', Hp'.
  rewrite Hb in Hb'. rewrite Hnone in Hp'.
  pose proof (cryo_basis_kl_to_beam_computed _ _ Hp' Hb') as Hread.
  rewrite Ha, HK in Hread.
  assert (Hkept : slice_stop (shape0 b) (Some K) = Z.to_nat K).
  { unfold slice_stop. rewrite (proj2 (Z.ltb_ge K 0)) by lia.
    f_equal. lia. }
  rewrite Hkept in Hread.
  apply andb_true_iff in Hok as (Hn & Hall).
  apply bool_decide_eq_true in Hn.
  unfold __call__. rewrite (bind_ok _ _ _ _ _ Hcoeff).
  unfold bind at 1, attr at 1. rewrite Ha.
  destruct (return_beam_above_horizon (attrs self)).
  - rewrite (bind_ok _ _ _ _ _ Hread).
    unfold bind, lift, matmul. simpl.
    rewrite decide_False by lia. done.
  - destruct Hmode as [[=] | Hfreq].
    unfold bind at 1, attr at 1. rewrite Ha.
    destruct (frequencies (attrs self)) as [| f fs]; [done |].
    destruct (rows coeff) as [| row rest] eqn:Er; [simpl in *; lia |].
    unfold bind at 1. simpl. unfold bind at 1, attr at 1.
    rewrite (bind_ok _ _ _ _ _ Hread).
    unfold bind at 1, lift at 1, getrow. rewrite Er. simpl.
    unfold bind at 1, lift at 1, matmul_vec. simpl.
    apply andb_true_iff in Hall as (Hrow & _).
    apply bool_decide_eq_true in Hrow.
    rewrite decide_False by lia. done.
Qed.

(** ** Edge cases of the query *)

(** X17. With no frequency, the full-sky query never reads the projector:
    when the interpolation step completes it returns the empty one-axis
    array (shape [(0,)], not [(0, 12 * nside^2)]) and no exception. *)
Theorem full_sky_query_without_frequencies self parameter coeff self1 :
  return_beam_above_horizon (attrs self) = false →
  frequencies (attrs self) = [] →
  interp_coeff parameter self = (Ok coeff, self1) →
  __call__ parameter self = (Ok (Array1d []), self1).
Proof.
  intros Hmode Hfreqs Hcoeff.
  destruct (keeps_interp_coeff parameter self) as (Ha & _ & _).
  rewrite Hcoeff in Ha. simpl in Ha.
  unfold __call__. rewrite (bind_ok _ _ _ _ _ Hcoeff).
  unfold bind at 1, attr at 1. rewrite Ha, Hmode.
  unfold bind at 1, attr at 1. by rewrite Ha, Hfreqs.
Qed.

(** The first pass of the full-sky loop: when the assignment to the map
    raises, so does the query. *)
Lemma full_sky_first_assignment_raises
    self parameter coeff self1 basis self2 e :
  return_beam_above_horizon (attrs self) = false →
  interp_coeff parameter self = (Ok coeff, self1) →
  cryo_basis_kl_to_beam self1 = (Ok basis, self2) →
  frequencies (attrs self) ≠ [] →
  array2_ok coeff = true →
  shape0 coeff = length (frequencies (attrs self)) →
  shape1 basis = shape1 coeff →
  (∀ row, rows coeff !! 0 = Some row →
          setitem_fancy (zeros (Z.to_nat (nside2npix (nside (attrs self)))))
            (unmasked_indices (attrs self)) (project basis row)
          = Raise e) →
  __call__ parameter self = (Raise e, self2).
Proof.
  intros Hmode Hcoeff Hbasis Hfreqs Hok Hrows Hcols Hset.
  destruct (keeps_interp_coeff parameter self) as (Ha & _ & _).
  rewrite Hcoeff in Ha. simpl in Ha.
  destruct (cryo_basis_kl_to_beam_ok _ _ _ Hbasis) as (_ & Ha2).
  rewrite Ha in Ha2.
  apply andb_true_iff in Hok as (Hn & Hall).
  apply bool_decide_eq_true in Hn.
  unfold __call__. rewrite (bind_ok _ _ _ _ _ Hcoeff).
  unfold bind at 1, attr at 1. rewrite Ha, Hmode.
  unfold bind at 1, attr at 1. rewrite Ha.
  destruct (frequencies (attrs self)) as [| f fs]; [done |].
  destruct (rows coeff) as [| row rest] eqn:Er; [simpl in *; lia |].
  apply bind_raise. simpl. unfold bind at 1, attr at 1.
  rewrite (bind_ok _ _ _ _ _ Hbasis).
  unfold bind at 1, lift at 1, getrow. rewrite Er. simpl.
  unfold bind at 1, lift at 1, matmul_vec.
  apply andb_true_iff in Hall as (Hrow & _).
  apply bool_decide_eq_true in Hrow.
  rewrite decide_True by congruence.
  unfold bind at 1, attr at 1. unfold bind at 1, lift at 1.
  fold (project basis row). rewrite Ha2, Ha.
  by rewrite (Hset row eq_refl).
Qed.

Lemma rmapM_normalize_index_raises n idx :
  Exists (fun i => ¬ addressable n i) idx →
  rmapM (normalize_index n) idx = Raise IndexError.
Proof.
  assert (Hone : ∀ i, (∃ p, normalize_index n i = Ok p ∧ addressable n i)
                      ∨ (normalize_index n i = Raise IndexError
                         ∧ ¬ addressable n i)).
  { intros i. unfold normalize_index, addressable.
    destruct (_ && _) eqn:E.
    - left. eexists. split; [done |].
      apply andb_true_iff in E. lia.
    - right. split; [done |]. apply andb_false_iff in E. lia. }
  induction idx as [| i idx IH]; intros Hex; [by inversion Hex |].
  simpl. destruct (Hone i) as [(p & -> & Hi) | [-> _]]; [| done].
  simpl. inversion Hex as [? ? Hbad | ? ? Hrest]; subst; [done |].
  by rewrite IH.
Qed.

(** X18. Pixel indices are checked only when the map is filled: with a
    projector on the instance and one value per index, a full-sky query
    raises [IndexError] as soon as one stored index lies outside
    [-12 * nside^2, 12 * nside^2). *)
Theorem full_sky_query_index_out_of_range
    self parameter coeff self1 basis self2 :
  return_beam_above_horizon (attrs self) = false →
  interp_coeff parameter self = (Ok coeff, self1) →
  cryo_basis_kl_to_beam self1 = (Ok basis, self2) →
  frequencies (attrs self) ≠ [] →
  array2_ok coeff = true →
  shape0 coeff = length (frequencies (attrs self)) →
  shape1 basis = shape1 coeff →
  length (rows basis) = length (unmasked_indices (attrs self)) →
  Exists (fun i =>
            ¬ addressable (Z.to_nat (nside2npix (nside (attrs self)))) i)
    (unmasked_indices (attrs self)) →
  __call__ parameter self = (Raise IndexError, self2).
Proof.
  intros Hmode Hcoeff Hbasis Hfreqs Hok Hrows Hcols Hlen Hbad.
  apply (full_sky_first_assignment_raises _ _ coeff self1 basis); try done.
  intros row _. unfold setitem_fancy, broadcast_to, project.
  rewrite decide_True by (by rewrite length_map). simpl.
  unfold zeros. rewrite length_replicate.
  by rewrite rmapM_normalize_index_raises.
Qed.

(** X19. The mask is matched against the projector only when the map is
    filled: with addressable indices, a full-sky query raises [ValueError]
    when the projector has neither as many rows as there are pixel indices
    nor exactly one row. *)
Theorem full_sky_query_mask_length_mismatch
    self parameter coeff self1 basis self2 :
  return_beam_above_horizon (attrs self) = false →
  interp_coeff parameter self = (Ok coeff, self1) →
  cryo_basis_kl_to_beam self1 = (Ok basis, self2) →
  frequencies (attrs self) ≠ [] →
  array2_ok coeff = true →
  shape0 coeff = length (frequencies (attrs self)) →
  shape1 basis = shape1 coeff →
  Forall (addressable (Z.to_nat (nside2npix (nside (attrs self)))))
    (unmasked_indices (attrs self)) →
  length (rows basis) ≠ length (unmasked_indices (attrs self)) →
  length (rows basis) ≠ 1 →
  __call__ parameter self = (Raise ValueError, self2).
Proof.
  intros Hmode Hcoeff Hbasis Hfreqs Hok Hrows Hcols Hidx Hlen Hone.
  apply (full_sky_first_assignment_raises _ _ coeff self1 basis); try done.
  intros row _. unfold setitem_fancy, broadcast_to, project.
  rewrite decide_False by (by rewrite length_map).
  by destruct (rows basis) as [| r [| r' rest]].
Qed.

(** X20. An empty parameter is rejected after the fit: when the read of the
    interpolater returns (a spline in spline mode, a regressor in
    Gaussian-process mode), the query raises [IndexError] and the
    interpolater stays on the instance. *)
Theorem query_with_empty_parameter self itp self' :
  hyper_parameter_interpolater self = (Ok itp, self') →
  use_gpr (attrs self) = false ∨ (∃ r, itp = Regr r) →
  __call__ [] self = (Raise IndexError, self')
  ∧ _hyper_parameter_interpolater (late self') = Some itp.
Proof.
  intros Hread Hkind. split.
  - unfold __call__. apply bind_raise.
    unfold interp_coeff, bind at 1, attr at 1.
    destruct (use_gpr (attrs self)).
    + destruct Hkind as [[=] | [r ->]].
      by rewrite (bind_ok _ _ _ _ _ Hread).
    + by rewrite (bind_ok _ _ _ _ _ Hread).
  - by apply hyper_parameter_interpolater_bound in Hread.
Qed.

(** ** The values of the horizon-restricted query *)

Lemma transpose_lookup (a : array2) j :
  j < shape1 a →
  rows (transpose a) !! j
  = Some (map (fun i => entry a i j) (seq 0 (shape0 a))).
Proof.
  intros Hj. unfold transpose. simpl.
  rewrite list_lookup_fmap, lookup_seq_lt by done. done.
Qed.

Lemma entry_lookup (a : array2) i j row x :
  rows a !! i = Some row → row !! j = Some x → entry a i j = x.
Proof.
  intros Hrow Hx. unfold entry.
  rewrite (nth_lookup_Some _ _ _ _ Hrow).
  by rewrite (nth_lookup_Some _ _ _ _ Hx).
Qed.

(** Transposing twice gives the rows back. *)
Lemma transpose_transpose_rows (a : array2) :
  array2_ok a = true → rows (transpose (transpose a)) = rows a.
Proof.
  intros Hok. apply andb_true_iff in Hok as (Hn & Hall).
  apply bool_decide_eq_true in Hn. rewrite forallb_forall in Hall.
  apply list_eq. intros i.
  destruct (decide (i < shape0 a)) as [Hi | Hi].
  - rewrite transpose_lookup by done.
    destruct (lookup_lt_is_Some_2 (rows a) i) as [row Hrow]; [lia |].
    rewrite Hrow. f_equal. simpl.
    assert (Hlen : length row = shape1 a).
    { eapply bool_decide_eq_true_1, Hall, list_elem_of_In.
      by eapply list_elem_of_lookup_2. }
    apply list_eq. intros j.
    destruct (decide (j < shape1 a)) as [Hj | Hj].
    + rewrite list_lookup_fmap, lookup_seq_lt by done. simpl.
      destruct (lookup_lt_is_Some_2 row j) as [x Hx]; [lia |].
      rewrite Hx. f_equal.
      apply (entry_lookup _ _ _ _ _ (transpose_lookup a j Hj)).
      rewrite list_lookup_fmap, lookup_seq_lt by done. simpl.
      f_equal. by apply (entry_lookup _ _ _ row).
    + rewrite (lookup_ge_None_2 row) by lia.
      apply lookup_ge_None_2. rewrite length_map, length_seq. lia.
  - rewrite (lookup_ge_None_2 (rows a)) by lia.
    apply lookup_ge_None_2. unfold transpose. simpl.
    rewrite length_map, length_seq. lia.
Qed.

(** X21. The horizon-restricted query returns the same numbers the
    full-sky query scatters: entry [i, f] of its result is the product of
    row [i] of the projector with the coefficients of frequency [f], that
    is, column [f] is the list of projected values of frequency [f]. *)
Theorem horizon_query_entries
    self parameter coeff self1 basis self2 :
  return_beam_above_horizon (attrs self) = true →
  interp_coeff parameter self = (Ok coeff, self1) →
  cryo_basis_kl_to_beam self1 = (Ok basis, self2) →
  array2_ok coeff = true →
  shape1 basis = shape1 coeff →
  ∃ a,
    __call__ parameter self = (Ok (Array2d a), self2)
    ∧ ∀ i r f row,
        rows basis !! i = Some r →
        rows coeff !! f = Some row →
        ∃ out,
          rows a !! i = Some out
          ∧ out !! f = Some (dot r row)
          ∧ out !! f = project basis row !! i.
Proof.
  intros Hmode Hcoeff Hbasis Hok Hcols.
  destruct (keeps_interp_coeff parameter self) as (Ha & _ & _).
  rewrite Hcoeff in Ha. simpl in Ha.
  unfold __call__. rewrite (bind_ok _ _ _ _ _ Hcoeff).
  unfold bind at 1, attr at 1. rewrite Ha, Hmode.
  rewrite (bind_ok _ _ _ _ _ Hbasis).
  unfold bind, lift, ret, matmul.
  rewrite decide_True by (simpl; congruence).
  eexists. split; [reflexivity |].
  intros i r f row Hr Hrow. cbn [rows].
  rewrite (transpose_transpose_rows _ Hok).
  eexists. split.
  { rewrite list_lookup_fmap, Hr. reflexivity. }
  assert (Hdot : map (dot r) (rows coeff) !! f = Some (dot r row))
    by (by rewrite list_lookup_fmap, Hrow).
  split; [done |].
  unfold project. by rewrite Hdot, list_lookup_fmap, Hr.
Qed.

(** ** The full-sky query, once more *)

(** X22. With a projector on the instance, one coefficient row per
    frequency, one projector row per pixel index and addressable indices,
    the full-sky query returns one map of [12 * nside^2] pixels per
    frequency; in each map a pixel that no index addresses is zero, and an
    addressed pixel holds the value projected for the last index that
    addresses it (so a repeated index keeps the later value). *)
Theorem full_sky_query_fills_addressed_pixels_only
    self parameter coeff self1 basis self2 :
  return_beam_above_horizon (attrs self) = false →
  interp_coeff parameter self = (Ok coeff, self1) →
  cryo_basis_kl_to_beam self1 = (Ok basis, self2) →
  frequencies (attrs self) ≠ [] →
  array2_ok coeff = true →
  shape0 coeff = length (frequencies (attrs self)) →
  shape1 basis = shape1 coeff →
  length (rows basis) = length (unmasked_indices (attrs self)) →
  Forall (addressable (Z.to_nat (nside2npix (nside (attrs self)))))
    (unmasked_indices (attrs self)) →
  ∃ out,
    __call__ parameter self = (Ok (Array2d out), self2)
    ∧ shape0 out = length (frequencies (attrs self))
    ∧ shape1 out = Z.to_nat (nside2npix (nside (attrs self)))
    ∧ ∀ f row,
        rows coeff !! f = Some row →
        ∃ beam,
          rows out !! f = Some beam
          ∧ length beam = Z.to_nat (nside2npix (nside (attrs self)))
          ∧ (∀ q, q < Z.to_nat (nside2npix (nside (attrs self))) →
                  (∀ i, i ∈ unmasked_indices (attrs self) →
                        position (Z.to_nat (nside2npix (nside (attrs self))))
                          i ≠ q) →
                  beam !! q = Some r0)
          ∧ (∀ j i v,
               unmasked_indices (attrs self) !! j = Some i →
               project basis row !! j = Some v →
               (∀ j' i', j < j' →
                         unmasked_indices (attrs self) !! j' = Some i' →
                         position (Z.to_nat (nside2npix (nside (attrs self))))
                           i'
                         ≠ position
                             (Z.to_nat (nside2npix (nside (attrs self)))) i) →
               beam !! position (Z.to_nat (nside2npix (nside (attrs self))))
                         i
               = Some v).
Proof.
  intros Hmode Hcoeff Hbasis Hfreqs Hok Hrows Hcols Hlen Hidx.
  exact (full_sky_query_masks_and_fills _ _ _ _ _ _ Hmode Hcoeff Hbasis
           Hfreqs Hok Hrows Hcols Hlen Hidx).
Qed.

(** X23. A stored index [-1], as the shift of a one-based index [0]
    produces it, is accepted by the full-sky query and addresses the last
    pixel: under the conditions of X22, when no later index is [-1] or
    [12 * nside^2 - 1], pixel [12 * nside^2 - 1] of each map holds the value
    projected for that index. *)
Theorem full_sky_query_negative_index_wraps
    self parameter coeff self1 basis self2 j f row v :
  return_beam_above_horizon (attrs self) = false →
  interp_coeff parameter self = (Ok coeff, self1) →
  cryo_basis_kl_to_beam self1 = (Ok basis, self2) →
  frequencies (attrs self) ≠ [] →
  array2_ok coeff = true →
  shape0 coeff = length (frequencies (attrs self)) →
  shape1 basis = shape1 coeff →
  length (rows basis) = length (unmasked_indices (attrs self)) →
  Forall (addressable (Z.to_nat (nside2npix (nside (attrs self)))))
    (unmasked_indices (attrs self)) →
  unmasked_indices (attrs self) !! j = Some (-1)%Z →
  (∀ j' i', j < j' → unmasked_indices (attrs self) !! j' = Some i' →
            i' ≠ (-1)%Z ∧ i' ≠ (nside2npix (nside (attrs self)) - 1)%Z) →
  rows coeff !! f = Some row →
  project basis row !! j = Some v →
  ∃ out beam,
    __call__ parameter self = (Ok (Array2d out), self2)
    ∧ rows out !! f = Some beam
    ∧ beam !! (Z.to_nat (nside2npix (nside (attrs self))) - 1) = Some v.
Proof.
  intros Hmode Hcoeff Hbasis Hfreqs Hok Hrows Hcols Hlen Hidx Hj Hlater
    Hrow Hv.
  exact (full_sky_query_minus_one_fills_last_pixel _ _ _ _ _ _ _ _ _ _
           Hmode Hcoeff Hbasis Hfreqs Hok Hrows Hcols Hlen Hidx Hj Hlater
           Hrow Hv).
Qed.

(** ** Installing an interpolater, and the score of the spline *)

(** X24. An interpolater assigned to the property is used as it is: in
    spline mode, after [self.hyper_parameter_interpolater = spline], a query
    evaluates that spline at [parameter[0]] without reshaping or fitting
    anything, whatever the grid and the coefficients on the instance are. *)
Theorem assigned_spline_is_queried_without_fit self s p ps :
  use_gpr (attrs self) = false →
  interp_coeff (p :: ps) (set_hyper_parameter_interpolater (Spline s) self).2
  = (spline_at s p, (set_hyper_parameter_interpolater (Spline s) self).2).
Proof.
  intros Hgpr. unfold interp_coeff, bind at 1, attr at 1. simpl.
  rewrite Hgpr. unfold bind, lift, hyper_parameter_interpolater, bound_attr.
  simpl. by destruct (spline_at s p).
Qed.

(** X25. With scikit-learn installed, a spline fit whose check on the
    training grid goes through records the score of the check: after the
    read, [spline_score_of_training_set] returns the [r2_score] of the
    reshaped coefficients against the spline evaluated at the grid nodes. *)
Theorem spline_fit_records_score self x k reshaped s t predicted v :
  sklearn_installed = true →
  use_gpr (attrs self) = false →
  _hyper_parameter_interpolater (late self) = None →
  _hyper_parameter_array (attrs self) = Some x →
  _interpolation_order (attrs self) = Some k →
  reshape_tensor (length x) (cryo_coefficients (attrs self)) = Ok reshaped →
  make_interp_spline x (cryo_coefficients (attrs self)) k = Ok s →
  spline_at_nodes s x = Ok t →
  reshape_tensor (length x) t = Ok predicted →
  r2_score reshaped predicted = Ok v →
  ∃ self',
    hyper_parameter_interpolater self = (Ok (Spline s), self')
    ∧ spline_score_of_training_set self' = (Ok v, self').
Proof.
  intros Hsk Hgpr Hnone Hx Hk Hshape Hfit Hnodes Hpredicted Hscore.
  eexists. split.
  - unfold hyper_parameter_interpolater. rewrite Hnone.
    unfold fit_interpolater, fit_spline, hyper_parameter_array,
      interpolation_order, bind, attr, bound_attr, lift. simpl.
    repeat (progress
              (rewrite ?Hx, ?Hshape, ?Hgpr, ?Hk, ?Hfit, ?Hnodes, ?Hpredicted;
               simpl)).
    unfold try_score_spline, score_spline, bind, lift. simpl.
    rewrite Hsk, Hscore. simpl. reflexivity.
  - reflexivity.
Qed.

End Further.









(** * The further properties on the demo inputs *)

Section FurtherChecks.
#[local] Existing Instance Zscalar.

(** X1 on the demo emulator in spline mode. *)
Lemma hyper_parameter_interpolater_read_twice_witness :
  ∃ itp self',
    hyper_parameter_interpolater (demo_spline false) = (Ok itp, self')
    ∧ hyper_parameter_interpolater self' = (Ok itp, self').
Proof.
  eexists _, _. split; [reflexivity |].
  apply (@hyper_parameter_interpolater_read_twice _ (demo_env true)
           (demo_spline false)).
  reflexivity.
Defined.

(** X2 with a spline that cannot be evaluated at the grid nodes. *)
Lemma spline_kept_after_failed_check_witness :
  ∃ s self1,
    @hyper_parameter_interpolater _ brittle_env
      (demo_instance brittle_env demo_frequencies demo_coefficients
         [0; 4; 9]%Z false None ∅ false)
    = (Raise ValueError, self1)
    ∧ @hyper_parameter_interpolater _ brittle_env self1
      = (Ok (Spline s), self1).
Proof.
  edestruct (@spline_kept_after_failed_check _ brittle_env
               (demo_instance brittle_env demo_frequencies demo_coefficients
                  [0; 4; 9]%Z false None ∅ false))
    as (self1 & Hfirst & Hsecond);
    [reflexivity | reflexivity | reflexivity | reflexivity | reflexivity
    | reflexivity | reflexivity |].
  eexists _, self1. split; [exact Hfirst | exact Hsecond].
Defined.

(** X3 on the demo emulator in Gaussian-process mode without any keyword. *)
Lemma gpr_not_kept_after_failed_fit_witness :
  ∃ e self',
    hyper_parameter_interpolater (demo_gpr ∅) = (Raise e, self')
    ∧ _hyper_parameter_interpolater (late self') = None.
Proof.
  eexists _, _. split; [reflexivity |].
  eapply proj1,
    (@gpr_not_kept_after_failed_fit _ (demo_env true) (demo_gpr ∅));
    reflexivity.
Defined.

(** X4 on seventeen coefficients for three grid nodes. *)
Lemma fit_rejects_ragged_coefficients_witness :
  hyper_parameter_interpolater
    (demo_instance (demo_env true) demo_frequencies ragged_coefficients
       [0; 4; 9]%Z false None ∅ false)
  = (Raise ValueError,
     demo_instance (demo_env true) demo_frequencies ragged_coefficients
       [0; 4; 9]%Z false None ∅ false).
Proof.
  apply (@fit_rejects_ragged_coefficients _ (demo_env true) _ demo_grid).
  - reflexivity.
  - reflexivity.
  - right. vm_compute. discriminate.
Defined.

(** X5 on the demo emulator in Gaussian-process mode without any keyword. *)
Lemma gpr_query_needs_kernel_entry_witness :
  @__call__ _ (demo_env true) [2%Z] (demo_gpr ∅)
  = (Raise KeyError, demo_gpr ∅).
Proof.
  eapply (@gpr_query_needs_kernel_entry _ (demo_env true)); reflexivity.
Defined.

(** X6 on the demo emulator with a complete keyword dictionary: the fitted
    regressor has one estimator for each of the six outputs (two
    frequencies, three coefficients), and the diagnostics hold the six
    parameters and the six log marginal likelihoods in that order. *)
Lemma gpr_fit_records_every_estimator_witness :
  ∃ itp self' regr,
    hyper_parameter_interpolater (demo_gpr (demo_kwargs "RBF" "MultiOutput"))
    = (Ok itp, self')
    ∧ itp = Regr regr
    ∧ length (estimators_ regr) = 6
    ∧ @estimator_hyper_parameters _ (demo_env true) self'
      = (Ok [0; 1; 2; 3; 4; 5], self')
    ∧ @estimator_log_marginal_likelihoods _ (demo_env true) self'
      = (Ok [0; -1; -2; -3; -4; -5]%Z, self')
    ∧ @gpr_score_of_training_set _ (demo_env true) self' = (Ok 1%Z, self').
Proof.
  eexists _, _.
  edestruct (@gpr_fit_records_every_estimator _ (demo_env true)
               (demo_gpr (demo_kwargs "RBF" "MultiOutput")))
    as (regr & s & Hitp & Hparams & Hlikelihoods & Hscore);
    [reflexivity | reflexivity | reflexivity |].
  exists regr. split; [reflexivity |]. split; [exact Hitp |].
  injection Hitp as <-.
  split; [reflexivity |]. split; [exact Hparams |].
  split; [exact Hlikelihoods |].
  rewrite Hscore. f_equal. f_equal.
  vm_compute in Hscore. by injection Hscore as <-.
Defined.

(** X9 on the demo emulator after two earlier queries. *)
Lemma query_raises_after_any_queries_witness :
  ∃ self self1,
    demo_emulator true [1; 5; 10]%Z false None ∅ false true = Ok self
    ∧ @__call__ _ (demo_env true) [2%Z]
        (@after_queries _ (demo_env true) [[1%Z]; [3%Z]] self)
      = (Raise AttributeError, self1).
Proof.
  eexists _, _. split; [reflexivity |].
  eapply (@query_raises_after_any_queries _ (demo_env true) demo_frequencies
            1%Z demo_basis demo_coefficients demo_grid [1; 5; 10]%Z 1%Z
            false None ∅ false true).
  - reflexivity.
  - reflexivity.
  - right. discriminate.
Defined.

(** X10 on the demo emulator as constructed. *)
Lemma coefficient_predicter_only_reads_witness :
  @coefficient_predicter _ (demo_env true) (one_by_one 2) (demo_spline false)
  = (Raise AttributeError, demo_spline false).
Proof.
  destruct (@coefficient_predicter_only_reads _ (demo_env true)
              (one_by_one 2) (demo_spline false)) as [Hstate Hraise].
  specialize (Hraise eq_refl).
  destruct (coefficient_predicter (one_by_one 2) (demo_spline false))
    as [r self'].
  simpl in Hstate, Hraise. by rewrite Hstate, Hraise.
Defined.

(** X11 on the demo emulator with a complete keyword dictionary. *)
Lemma gpr_query_predicts_like_coefficient_predicter_witness :
  ∃ regr self',
    hyper_parameter_interpolater (demo_gpr (demo_kwargs "RBF" "MultiOutput"))
    = (Ok (Regr regr), self')
    ∧ @interp_coeff _ (demo_env true) [2%Z] self'
      = (c <~ predict regr (one_by_one 2) ;;;
         reshape_array 2 c,
         self').
Proof.
  eexists _, _. split; [reflexivity |].
  eapply (@gpr_query_predicts_like_coefficient_predicter _ (demo_env true)
            (demo_gpr (demo_kwargs "RBF" "MultiOutput")) _ _
            (one_by_one 2));
    reflexivity.
Defined.

(** X12 on the same emulator: two rows for two frequencies. *)
Lemma gpr_coefficients_have_one_row_per_frequency_witness :
  ∃ coeff self1,
    @interp_coeff _ (demo_env true) [2%Z]
      (demo_gpr (demo_kwargs "RBF" "MultiOutput"))
    = (Ok coeff, self1)
    ∧ shape0 coeff = 2 ∧ length (rows coeff) = 2.
Proof.
  eexists _, _. split; [reflexivity |].
  edestruct (@gpr_coefficients_have_one_row_per_frequency _ (demo_env true)
               (demo_gpr (demo_kwargs "RBF" "MultiOutput")) [2%Z])
    as (Hshape & Hrows & _); [reflexivity | reflexivity |].
  split; [exact Hshape | exact Hrows].
Defined.

(** X13 on the demo basis with [coefficient_order = 2]. *)
Lemma projector_keeps_first_coefficients_witness :
  ∃ self',
    cryo_basis_kl_to_beam (demo_based (Some 2%Z) false)
    = (Ok {| shape0 := 3; shape1 := 2;
             rows := [[1; 1]; [0; 1]; [0; 0]]%Z |}, self').
Proof.
  edestruct (@projector_keeps_first_coefficients _ (demo_env true)
               (demo_based (Some 2%Z) false) demo_basis 2%Z)
    as (self' & Hread & _);
    [reflexivity | reflexivity | reflexivity | vm_compute; split; discriminate
    |].
  exists self'. exact Hread.
Defined.

(** X14 on the demo basis with [coefficient_order = -1]. *)
Lemma projector_order_out_of_range_witness :
  (cryo_basis_kl_to_beam (demo_based (Some (-1)%Z) false)).1
  = Ok {| shape0 := 3; shape1 := 2; rows := [[1; 1]; [0; 1]; [0; 0]]%Z |}.
Proof.
  apply (@projector_order_out_of_range _ (demo_env true)
           (demo_based (Some (-1)%Z) false) demo_basis (-1)%Z).
  - reflexivity.
  - reflexivity.
  - reflexivity.
  - left. reflexivity.
Defined.

(** X15 on the demo emulator with the projector installed, after
    [coefficient_order] is set to 1. *)
Lemma projector_ignores_later_order_witness :
  (cryo_basis_kl_to_beam
     (set_coefficient_order (Some 1%Z)
        (demo_projecting (demo_env true) demo_frequencies demo_coefficients
           [0; 4; 9]%Z false None ∅ false))).1
  = Ok demo_projector.
Proof.
  erewrite (@projector_ignores_later_order _ (demo_env true)
              (demo_projecting (demo_env true) demo_frequencies
                 demo_coefficients [0; 4; 9]%Z false None ∅ false));
    reflexivity.
Defined.

(** X16 on the demo basis with [coefficient_order = 2] and three
    coefficients per frequency, in horizon-restricted mode. *)
Lemma truncated_projector_rejects_full_coefficients_witness :
  (@__call__ _ (demo_env true) [2%Z] (demo_based (Some 2%Z) true)).1
  = Raise ValueError.
Proof.
  eapply (@truncated_projector_rejects_full_coefficients _ (demo_env true)
            (demo_based (Some 2%Z) true) demo_basis 2%Z).
  - reflexivity.
  - reflexivity.
  - reflexivity.
  - vm_compute. split; [discriminate | reflexivity].
  - reflexivity.
  - reflexivity.
  - reflexivity.
  - reflexivity.
  - left. reflexivity.
Defined.

(** X17 on an emulator without frequencies. *)
Lemma full_sky_query_without_frequencies_witness :
  ∃ self1,
    @__call__ _ (demo_env true) [2%Z]
      (demo_instance (demo_env true) [] empty_coefficients [0; 4; 9]%Z false
         None ∅ false)
    = (Ok (Array1d []), self1).
Proof.
  eexists.
  eapply (@full_sky_query_without_frequencies _ (demo_env true));
    reflexivity.
Defined.

(** X18 with the stored index 12 in a map of twelve pixels. *)
Lemma full_sky_query_index_out_of_range_witness :
  ∃ self2,
    @__call__ _ (demo_env true) [2%Z]
      (demo_projecting (demo_env true) demo_frequencies demo_coefficients
         [0; 4; 12]%Z false None ∅ false)
    = (Raise IndexError, self2).
Proof.
  eexists.
  eapply (@full_sky_query_index_out_of_range _ (demo_env true)).
  - reflexivity.
  - reflexivity.
  - reflexivity.
  - discriminate.
  - reflexivity.
  - reflexivity.
  - reflexivity.
  - reflexivity.
  - do 2 apply Exists_cons_tl. apply Exists_cons_hd.
    unfold addressable. vm_compute. intros [_ Hlt]. discriminate Hlt.
Defined.

(** X19 with two stored indices and a projector of three rows. *)
Lemma full_sky_query_mask_length_mismatch_witness :
  ∃ self2,
    @__call__ _ (demo_env true) [2%Z]
      (demo_projecting (demo_env true) demo_frequencies demo_coefficients
         [0; 4]%Z false None ∅ false)
    = (Raise ValueError, self2).
Proof.
  eexists.
  eapply (@full_sky_query_mask_length_mismatch _ (demo_env true)).
  - reflexivity.
  - reflexivity.
  - reflexivity.
  - discriminate.
  - reflexivity.
  - reflexivity.
  - reflexivity.
  - repeat constructor; vm_compute; discriminate.
  - vm_compute. discriminate.
  - vm_compute. discriminate.
Defined.

(** X20 on the demo emulator in spline mode. *)
Lemma query_with_empty_parameter_witness :
  ∃ self',
    @__call__ _ (demo_env true) [] (demo_spline false)
    = (Raise IndexError, self').
Proof.
  eexists.
  eapply proj1,
    (@query_with_empty_parameter _ (demo_env true) (demo_spline false)).
  - reflexivity.
  - left. reflexivity.
Defined.

(** X21 on the demo emulator with the projector installed: entry [1, 0] is
    the product of projector row 1 with the coefficients of the first
    frequency. *)
Lemma horizon_query_entries_witness :
  ∃ a self2 out,
    @__call__ _ (demo_env true) [2%Z]
      (demo_projecting (demo_env true) demo_frequencies demo_coefficients
         [0; 4; 9]%Z false None ∅ true)
    = (Ok (Array2d a), self2)
    ∧ rows a !! 1 = Some out
    ∧ out !! 0 = Some 1%Z.
Proof.
  edestruct (@horizon_query_entries _ (demo_env true)
               (demo_projecting (demo_env true) demo_frequencies
                  demo_coefficients [0; 4; 9]%Z false None ∅ true) [2%Z])
    as (a & Hcall & Hentries);
    [reflexivity | reflexivity | reflexivity | reflexivity | reflexivity |].
  edestruct Hentries with (i := 1) (f := 0) as (out & Hout & Hvalue & _);
    [reflexivity | reflexivity |].
  exists a. eexists. exists out.
  split; [exact Hcall |]. split; [exact Hout | exact Hvalue].
Defined.

(** X22 on the demo emulator with the projector installed: pixel 1 of the
    first map, which no index addresses, is zero. *)
Lemma full_sky_query_fills_addressed_pixels_only_witness :
  ∃ out self2 beam,
    @__call__ _ (demo_env true) [2%Z]
      (demo_projecting (demo_env true) demo_frequencies demo_coefficients
         [0; 4; 9]%Z false None ∅ false)
    = (Ok (Array2d out), self2)
    ∧ rows out !! 0 = Some beam
    ∧ beam !! 1 = Some 0%Z.
Proof.
  edestruct (@full_sky_query_fills_addressed_pixels_only _ (demo_env true)
               (demo_projecting (demo_env true) demo_frequencies
                  demo_coefficients [0; 4; 9]%Z false None ∅ false) [2%Z])
    as (out & Hcall & _ & _ & Hmaps);
    [ reflexivity | reflexivity | reflexivity | discriminate | reflexivity
    | reflexivity | reflexivity | reflexivity
    | repeat constructor; vm_compute; discriminate | ].
  edestruct Hmaps with (f := 0) as (beam & Hbeam & _ & Hzero & _);
    [reflexivity |].
  exists out. eexists. exists beam.
  split; [exact Hcall |]. split; [exact Hbeam |].
  apply Hzero.
  - vm_compute. lia.
  - intros i Hi. vm_compute in Hi.
    repeat (apply elem_of_cons in Hi as [-> | Hi]; [vm_compute; discriminate |]).
    by apply elem_of_nil in Hi.
Defined.

(** X23 with the stored indices [-1, 4, 9]: the value projected for the
    first index is in pixel 11 of the first map. *)
Lemma full_sky_query_negative_index_wraps_witness :
  ∃ out self2 beam,
    @__call__ _ (demo_env true) [2%Z]
      (demo_projecting (demo_env true) demo_frequencies demo_coefficients
         [-1; 4; 9]%Z false None ∅ false)
    = (Ok (Array2d out), self2)
    ∧ rows out !! 0 = Some beam
    ∧ beam !! 11 = Some 3%Z.
Proof.
  edestruct (@full_sky_query_negative_index_wraps _ (demo_env true))
    with (self := demo_projecting (demo_env true) demo_frequencies
                    demo_coefficients [-1; 4; 9]%Z false None ∅ false)
         (parameter := [2%Z]) (j := 0) (f := 0)
    as (out & beam & Hcall & Hbeam & Hlast);
    [ reflexivity | reflexivity | reflexivity | discriminate | reflexivity
    | reflexivity | reflexivity | reflexivity
    | repeat constructor; vm_compute; discriminate
    | reflexivity
    | intros [| [| [| j']]] i' Hlt Hi'; vm_compute in Hi';
      try discriminate Hi'; try (exfalso; lia);
      injection Hi' as <-; split; discriminate
    | reflexivity | reflexivity | ].
  exists out. eexists. exists beam.
  split; [exact Hcall |]. split; [exact Hbeam | exact Hlast].
Defined.

(** X25 on the demo emulator in spline mode. *)
Lemma spline_fit_records_score_witness :
  ∃ s self',
    hyper_parameter_interpolater (demo_spline false) = (Ok (Spline s), self')
    ∧ spline_score_of_training_set self' = (Ok 1%Z, self').
Proof.
  edestruct (@spline_fit_records_score _ (demo_env true) (demo_spline false))
    as (self' & Hread & Hscore);
    [ reflexivity | reflexivity | reflexivity | reflexivity | reflexivity
    | reflexivity | reflexivity | reflexivity | reflexivity | reflexivity | ].
  eexists _, self'. split; [exact Hread | exact Hscore].
Defined.

(** X24 on the demo emulator with ragged coefficients. *)
Lemma assigned_spline_is_queried_without_fit_witness :
  ∃ s st,
    step_spline demo_grid demo_coefficients 1 = Ok s
    ∧ @interp_coeff _ (demo_env true) [2%Z]
        (set_hyper_parameter_interpolater (Spline s)
           (demo_instance (demo_env true) demo_frequencies
              ragged_coefficients [0; 4; 9]%Z false None ∅ false)).2
      = (Ok {| shape0 := 2; shape1 := 3;
               rows := [[2; 1; 0]; [0; 2; 1]]%Z |}, st).
Proof.
  eexists _, _. split; [reflexivity |].
  erewrite (@assigned_spline_is_queried_without_fit _ (demo_env true));
    reflexivity.
Defined.

End FurtherChecks.
